(** * Task Tracker Pro: the task list's view pipeline and its persistence

    A shallow embedding of the page component of the task tracker.  The
    repository holds two revisions of that component:

    - [src/src/app/page.tsx]   (module [PageTsx]),
    - [src/unnamed/part_002]   (module [Part002]), the later revision: it
      sorts a copy, searches the status, clamps the page when it is read.

    What both revisions share (the task record, the persisted JSON
    document, the id generator, the comparator values) is in the modules
    before them.  The JavaScript runtime and the date-fns formatter are not
    code of the repository; the parts of them the component calls are
    modelled in [JS], [JSDate] and [DateFns].

    The component is a function of its state (the [useState] cells, record
    [State]) and of the world around it (record [World]: the slot of
    [localStorage], the toasts, the console).  A handler maps a state and a
    world to a state and a world; the readings of [Date.now()] and the
    draws of [Math.random()] are arguments.  Where the source shares an
    array between the state and a memo, the memo returns the contents of
    both. *)

From Stdlib Require Import ZArith List String Ascii Bool Lia.
From Stdlib Require Import Sorted Permutation DecimalString.
Import ListNotations.

Local Open Scope string_scope.
Local Open Scope list_scope.
Local Open Scope Z_scope.

(* ================================================================== *)
(** * The JavaScript runtime the component relies on                    *)
(* ================================================================== *)

Module JS.

(** ** Strings *)

Definition is_upper (c : ascii) : bool :=
  let n := nat_of_ascii c in (Nat.leb 65 n && Nat.leb n 90)%bool.

(** [String.prototype.toLowerCase] on the ASCII range (the letters A-Z);
    other characters are left as they are. *)
Definition lower_char (c : ascii) : ascii :=
  if is_upper c then ascii_of_nat (nat_of_ascii c + 32) else c.

Fixpoint toLowerCase (s : string) : string :=
  match s with
  | EmptyString => EmptyString
  | String c r => String (lower_char c) (toLowerCase r)
  end.

(** [s.startsWith(p)]. *)
Fixpoint startsWith (s p : string) : bool :=
  match p, s with
  | EmptyString, _ => true
  | String _ _, EmptyString => false
  | String a p', String b s' => (Ascii.eqb a b && startsWith s' p')%bool
  end.

(** [s.includes(sub)]: [sub] occurs in [s] at some position. *)
Fixpoint includes (s sub : string) : bool :=
  match s with
  | EmptyString => startsWith EmptyString sub
  | String _ r => (startsWith s sub || includes r sub)%bool
  end.

(** [sub] is a substring of [s]. *)
Definition Substring (sub s : string) : Prop :=
  exists pre post, s = (pre ++ sub ++ post)%string.

(** The strings without an upper-case letter. *)
Fixpoint caseless (s : string) : bool :=
  match s with
  | EmptyString => true
  | String c r => negb (is_upper c) && caseless r
  end.

(** [s.substr(start, len)] for non-negative arguments. *)
Definition substr (s : string) (start len : nat) : string :=
  substring start len s.

(** Truthiness of a string: the empty string is falsy. *)
Definition truthy (s : string) : bool :=
  match s with EmptyString => false | _ => true end.

(** ** Numbers *)

(** [Math.ceil(a / b)] for integers [a] and [b > 0]. *)
Definition ceil_div (a b : Z) : Z := - ((- a) / b).

(** [n || 1] for a number that is not NaN. *)
Definition or_one (n : Z) : Z := if n =? 0 then 1 else n.

(** ** Arrays *)

(** [Array.prototype.slice(start, end)]: a negative index counts from the
    end, and both indices are cut to the array. *)
Definition slice {A} (l : list A) (start_ end_ : Z) : list A :=
  let len := Z.of_nat (List.length l) in
  let k := if start_ <? 0 then Z.max (len + start_) 0 else Z.min start_ len in
  let final := if end_ <? 0 then Z.max (len + end_) 0 else Z.min end_ len in
  firstn (Z.to_nat (final - k)) (skipn (Z.to_nat k) l).

(** [Array.prototype.sort(cmp)].  The sort is stable (ECMAScript 2019);
    with a comparator that is a consistent ordering the sorted array is
    determined, and it is what this insertion sort returns: an element
    goes before the first one it does not compare greater than, so equal
    keys keep their order.  The array is sorted in place: [sort] gives
    its new contents. *)
Section Sort.
Context {A : Type} (cmp : A -> A -> Z).

Fixpoint insert (x : A) (l : list A) : list A :=
  match l with
  | [] => [x]
  | y :: r => if cmp x y <=? 0 then x :: y :: r else y :: insert x r
  end.

Fixpoint sort (l : list A) : list A :=
  match l with
  | [] => []
  | x :: r => insert x (sort r)
  end.

(** The comparator does not put [a] after [b]. *)
Definition notAfter (a b : A) : Prop := cmp a b <= 0.
End Sort.

End JS.

(* ================================================================== *)
(** * [Date]: time values, the civil calendar and the ISO string       *)
(* ================================================================== *)

(** A [Date] is its time value, the milliseconds since the epoch (UTC).
    [toISOString] is what [JSON.stringify] writes for a date (through
    [Date.prototype.toJSON]) and [parse] is what [new Date(string)] reads
    back.  The calendar arithmetic works on the 400-year cycle of 146097
    days, counted from a 1st of March. *)
Module JSDate.

Definition msPerDay : Z := 86400000.

(** The range of a valid time value (ECMAScript TimeClip). *)
Definition maxTime : Z := 8640000000000000.
Definition valid_time (t : Z) : Prop := - maxTime <= t <= maxTime.
Definition valid_timeb (t : Z) : bool := (- maxTime <=? t) && (t <=? maxTime).

Definition Day (t : Z) : Z := t / msPerDay.
Definition TimeWithinDay (t : Z) : Z := t mod msPerDay.

Record Civil := { year : Z; month : Z; day : Z }.

(** Position in the 400-year cycle: year of the cycle, day of that year
    (both counted from March). *)
Definition yoe_of (doe : Z) : Z :=
  (doe - doe / 1460 + doe / 36524 - doe / 146096) / 365.
Definition doy_of (doe : Z) : Z :=
  let yoe := yoe_of doe in doe - (365 * yoe + yoe / 4 - yoe / 100).
Definition mp_of (doy : Z) : Z := (5 * doy + 2) / 153.
Definition month_of_mp (mp : Z) : Z := if mp <? 10 then mp + 3 else mp - 9.
Definition mp_of_month (m : Z) : Z := if 2 <? m then m - 3 else m + 9.

Definition civil_from_days (z : Z) : Civil :=
  let z := z + 719468 in
  let era := z / 146097 in
  let doe := z mod 146097 in
  let yoe := yoe_of doe in
  let doy := doy_of doe in
  let mp := mp_of doy in
  let m := month_of_mp mp in
  {| year := yoe + era * 400 + (if m <=? 2 then 1 else 0);
     month := m;
     day := doy - (153 * mp + 2) / 5 + 1 |}.

Definition days_from_civil (c : Civil) : Z :=
  let y := year c - (if month c <=? 2 then 1 else 0) in
  let era := y / 400 in
  let yoe := y mod 400 in
  let doy := (153 * mp_of_month (month c) + 2) / 5 + day c - 1 in
  let doe := yoe * 365 + yoe / 4 - yoe / 100 + doy in
  era * 146097 + doe - 719468.

(** Calendar fields of a time value read as UTC. *)
Definition civil_of_time (t : Z) : Civil := civil_from_days (Day t).

(** ** Decimal fields of fixed width *)

Definition digit_char (d : Z) : ascii := ascii_of_nat (48 + Z.to_nat d).

Definition digit_val (c : ascii) : option Z :=
  let n := nat_of_ascii c in
  if (Nat.leb 48 n && Nat.leb n 57)%bool then Some (Z.of_nat n - 48) else None.

(** The [w] low decimal digits of [n], most significant first. *)
Fixpoint digits (w : nat) (n : Z) : string :=
  match w with
  | O => EmptyString
  | S w' => String (digit_char ((n / 10 ^ Z.of_nat w') mod 10)) (digits w' n)
  end.

Fixpoint read_digits (w : nat) (acc : Z) (s : string) : option (Z * string) :=
  match w with
  | O => Some (acc, s)
  | S w' =>
      match s with
      | String c r =>
          match digit_val c with
          | Some d => read_digits w' (10 * acc + d) r
          | None => None
          end
      | EmptyString => None
      end
  end.

Definition expect (c : ascii) (s : string) : option string :=
  match s with
  | String a r => if Ascii.eqb a c then Some r else None
  | EmptyString => None
  end.

(** ** [Date.prototype.toISOString] *)

(** Four digits for the years 0 to 9999, a sign and six digits
    otherwise. *)
Definition iso_year (y : Z) : string :=
  if (0 <=? y) && (y <=? 9999) then digits 4 y
  else String.append (if y <? 0 then "-" else "+") (digits 6 (Z.abs y)).

Definition toISOString (t : Z) : string :=
  let c := civil_of_time t in
  let w := TimeWithinDay t in
  (iso_year (year c) ++ "-" ++ digits 2 (month c) ++ "-" ++ digits 2 (day c)
    ++ "T" ++ digits 2 (w / 3600000)
    ++ ":" ++ digits 2 ((w / 60000) mod 60)
    ++ ":" ++ digits 2 ((w / 1000) mod 60)
    ++ "." ++ digits 3 (w mod 1000) ++ "Z")%string.

(** ** [Date.parse] on the ISO date-time format *)

Notation "' p <- e ;; k" :=
  (match e with Some p => k | None => None end)
    (at level 61, p pattern, e at next level, right associativity).

Definition read_year (s : string) : option (Z * string) :=
  match s with
  | String "+"%char r => read_digits 6 0 r
  | String "-"%char r => ' (y, r') <- read_digits 6 0 r ;; Some (- y, r')
  | _ => read_digits 4 0 s
  end.

(** The strings that are not in this format give [None]: the date is an
    Invalid Date. *)
Definition parse (s : string) : option Z :=
  ' (y, s) <- read_year s ;;
  ' s <- expect "-" s ;;
  ' (m, s) <- read_digits 2 0 s ;;
  ' s <- expect "-" s ;;
  ' (d, s) <- read_digits 2 0 s ;;
  ' s <- expect "T" s ;;
  ' (h, s) <- read_digits 2 0 s ;;
  ' s <- expect ":" s ;;
  ' (mi, s) <- read_digits 2 0 s ;;
  ' s <- expect ":" s ;;
  ' (sec, s) <- read_digits 2 0 s ;;
  ' s <- expect "." s ;;
  ' (ms, s) <- read_digits 3 0 s ;;
  ' s <- expect "Z" s ;;
  match s with
  | EmptyString =>
      if (1 <=? m) && (m <=? 12) && (1 <=? d) && (d <=? 31)
         && (h <=? 23) && (mi <=? 59) && (sec <=? 59)
      then
        let t := days_from_civil {| year := y; month := m; day := d |} * msPerDay
                 + h * 3600000 + mi * 60000 + sec * 1000 + ms in
        if valid_timeb t then Some t else None
      else None
  | _ => None
  end.

End JSDate.

(* ================================================================== *)
(** * What the host decides: time zone, collation, number printing     *)
(* ================================================================== *)

(** A draw of [Math.random()]: the double [k / 2^53], given by [k]. *)
Definition Draw := N.

(** The parts of the runtime that depend on the host and its locale. *)
Record Runtime := {
  (** the local time of a time value: the value shifted by the zone
      offset in force at that instant *)
  localTime : Z -> Z;
  (** [a.localeCompare(b)] *)
  localeCompare : string -> string -> Z;
  (** [x.toString(36)] for a draw [x] of [Math.random()] *)
  toString36 : Draw -> string
}.

(** [localeCompare] is a consistent ordering: exchanging the arguments
    flips the sign of the result, and "not after" is transitive. *)
Record Collation (rt : Runtime) : Prop := {
  collation_flip : forall a b,
    Z.sgn (localeCompare rt b a) = - Z.sgn (localeCompare rt a b);
  collation_trans : forall a b c,
    localeCompare rt a b <= 0 -> localeCompare rt b c <= 0 ->
    localeCompare rt a c <= 0
}.

(* ================================================================== *)
(** * date-fns [format], for the three patterns the component uses     *)
(* ================================================================== *)

(** [format(date, pattern)] of date-fns with its default locale (en-US),
    which reads the calendar fields in local time. *)
Module DateFns.

(** The decimal digits of a number that is not negative. *)
Definition decimal (n : Z) : string :=
  NilZero.string_of_uint (N.to_uint (Z.to_N n)).

Fixpoint zeros (k : nat) : string :=
  match k with O => EmptyString | S k' => String "0" (zeros k') end.

(** [addLeadingZeros(number, targetLength)] *)
Definition addLeadingZeros (n : Z) (w : nat) : string :=
  let digits := decimal (Z.abs n) in
  String.append (if n <? 0 then "-" else "")
                (String.append (zeros (w - String.length digits)) digits).

(** The tokens [y] and [yyyy] print the year of the era: year 0 is 1 BC. *)
Definition eraYear (signedYear : Z) : Z :=
  if 0 <? signedYear then signedYear else 1 - signedYear.

Definition monthWide (m : Z) : string :=
  match m with
  | 1 => "January" | 2 => "February" | 3 => "March" | 4 => "April"
  | 5 => "May" | 6 => "June" | 7 => "July" | 8 => "August"
  | 9 => "September" | 10 => "October" | 11 => "November" | _ => "December"
  end.

Definition monthAbbreviated (m : Z) : string :=
  match m with
  | 1 => "Jan" | 2 => "Feb" | 3 => "Mar" | 4 => "Apr"
  | 5 => "May" | 6 => "Jun" | 7 => "Jul" | 8 => "Aug"
  | 9 => "Sep" | 10 => "Oct" | 11 => "Nov" | _ => "Dec"
  end.

(** [ordinalNumber] of the en-US locale: 1st, 2nd, 3rd, 4th, 11th. *)
Definition ordinalNumber (n : Z) : string :=
  let rem100 := n mod 100 in
  let suffix :=
    if (20 <? rem100) || (rem100 <? 10) then
      match rem100 mod 10 with
      | 1 => "st" | 2 => "nd" | 3 => "rd" | _ => "th"
      end
    else "th" in
  String.append (decimal n) suffix.

Section Format.
Variable rt : Runtime.

Definition fields (date : Z) : JSDate.Civil :=
  JSDate.civil_of_time (localTime rt date).

(** [format(date, 'yyyy-MM-dd')] *)
Definition format_yyyy_MM_dd (date : Z) : string :=
  let c := fields date in
  (addLeadingZeros (eraYear (JSDate.year c)) 4
    ++ "-" ++ addLeadingZeros (JSDate.month c) 2
    ++ "-" ++ addLeadingZeros (JSDate.day c) 2)%string.

(** [format(date, 'PP')], the medium date [MMM d, y]: Apr 29, 2023 *)
Definition format_PP (date : Z) : string :=
  let c := fields date in
  (monthAbbreviated (JSDate.month c)
    ++ " " ++ addLeadingZeros (JSDate.day c) 1
    ++ ", " ++ addLeadingZeros (eraYear (JSDate.year c)) 1)%string.

(** [format(date, 'PPP')], the long date [MMMM do, y]: April 29th, 2023 *)
Definition format_PPP (date : Z) : string :=
  let c := fields date in
  (monthWide (JSDate.month c)
    ++ " " ++ ordinalNumber (JSDate.day c)
    ++ ", " ++ addLeadingZeros (eraYear (JSDate.year c)) 1)%string.
End Format.

End DateFns.

(** The exact base-36 expansion of the fraction [k / 2^53]: it ends within
    27 digits.  [Number.prototype.toString(36)] prints these digits up to
    the precision of a double; for a short expansion such as 1/2 = 0.i it
    prints exactly this. *)
Module Radix36.

Definition digit36 (d : N) : ascii :=
  if (d <? 10)%N then ascii_of_N (48 + d) else ascii_of_N (87 + d).

Fixpoint fraction (fuel : nat) (k : N) : string :=
  match fuel with
  | O => EmptyString
  | S fuel' =>
      if (k =? 0)%N then EmptyString
      else String (digit36 ((36 * k) / 2 ^ 53)%N)
                  (fraction fuel' ((36 * k) mod 2 ^ 53)%N)
  end.

Definition toString36 (k : Draw) : string :=
  if (k =? 0)%N then "0" else String.append "0." (fraction 27 k).

End Radix36.

(** A host in UTC whose collation compares code units. *)
Module UtcHost.

Fixpoint compareCodeUnits (a b : string) : Z :=
  match a, b with
  | EmptyString, EmptyString => 0
  | EmptyString, String _ _ => -1
  | String _ _, EmptyString => 1
  | String x a', String y b' =>
      match Nat.compare (nat_of_ascii x) (nat_of_ascii y) with
      | Lt => -1
      | Gt => 1
      | Eq => compareCodeUnits a' b'
      end
  end.

Definition runtime : Runtime :=
  {| localTime := fun t => t;
     localeCompare := compareCodeUnits;
     toString36 := Radix36.toString36 |}.

End UtcHost.

(* ================================================================== *)
(** * The task record ([src/unnamed/part_003])                          *)
(* ================================================================== *)

Module Types.

Inductive TaskStatus := Pending | Completed.

Record Task := {
  id : string;
  date : Z;                 (* a Date, as its time value *)
  description : string;
  link : option string;     (* [None] is [undefined] *)
  status : TaskStatus
}.

(** The string a status is at run time. *)
Definition status_text (s : TaskStatus) : string :=
  match s with Pending => "Pending" | Completed => "Completed" end.

(** [keyof Task] *)
Inductive TaskKey := Kid | Kdate | Kdescription | Klink | Kstatus.

(** The value of a property of a task. *)
Inductive Value :=
| VUndefined
| VString (s : string)
| VDate (t : Z).

(** [task[key]] *)
Definition prop (k : TaskKey) (t : Task) : Value :=
  match k with
  | Kid => VString (id t)
  | Kdate => VDate (date t)
  | Kdescription => VString (description t)
  | Klink => match link t with Some l => VString l | None => VUndefined end
  | Kstatus => VString (status_text (status t))
  end.

Inductive Direction := ascending | descending.

Record SortConfig := { key : option TaskKey; direction : Direction }.

(** What the form hands to its submit handler: the record the schema
    [taskSchema] has accepted. *)
Record Values := {
  v_id : option string;
  v_date : Z;
  v_description : string;
  v_link : option string;
  v_status : TaskStatus
}.

(** [values.link || undefined]: the empty string becomes [undefined]. *)
Definition link_or_undefined (l : option string) : option string :=
  match l with
  | Some s => if JS.truthy s then Some s else None
  | None => None
  end.

Definition is_ascending (d : Direction) : bool :=
  match d with ascending => true | descending => false end.

(** [sortConfig.key === key] *)
Definition key_eqb (a : option TaskKey) (b : TaskKey) : bool :=
  match a, b with
  | Some Kid, Kid | Some Kdate, Kdate | Some Kdescription, Kdescription
  | Some Klink, Klink | Some Kstatus, Kstatus => true
  | _, _ => false
  end.

End Types.
Import Types.

(* ================================================================== *)
(** * The stored JSON document and [localStorage]                       *)
(* ================================================================== *)

Module Json.

#[local] Set Warnings "-register-all".

Inductive json :=
| JNull
| JBool (b : bool)
| JNum (n : Z)
| JStr (s : string)
| JArr (items : list json)
| JObj (members : list (string * json)).

(** [obj[name]] on a parsed object: [None] is [undefined]. *)
Fixpoint member (name : string) (members : list (string * json)) : option json :=
  match members with
  | [] => None
  | (k, v) :: r => if String.eqb k name then Some v else member name r
  end.

(** [l.map(f)] for an [f] that can fail: the results, when every element
    has one. *)
Fixpoint traverse {A B} (f : A -> option B) (l : list A) : option (list B) :=
  match l with
  | [] => Some []
  | x :: r =>
      match f x, traverse f r with
      | Some y, Some ys => Some (y :: ys)
      | _, _ => None
      end
  end.

End Json.
Import Json.

(** The slot ["tasks"] of [localStorage], seen through [JSON.parse]:
    nothing stored (or the empty string, which is falsy as well), a text
    that [JSON.parse] rejects, or the document a text parses to.  The
    text itself, which [JSON.stringify] prints and [JSON.parse] reads, is
    the runtime's. *)
Module Storage.

Inductive Slot :=
| Absent
| Malformed
| Doc (j : json).

Record LocalStorage := {
  slot : Slot;
  (** whether [getItem] returns rather than throws *)
  readable : bool;
  (** whether [setItem] returns rather than throws (quota, private mode) *)
  writable : bool
}.

Definition getItem (ls : LocalStorage) : option Slot :=
  if readable ls then Some (slot ls) else None.

Definition setItem (ls : LocalStorage) (j : json) : option LocalStorage :=
  if writable ls
  then Some {| slot := Doc j; readable := readable ls; writable := true |}
  else None.

End Storage.
Import Storage.

Module Toast.
Inductive Variant := default | destructive.
Record t := { title : string; description : string; variant : Variant }.
End Toast.

(** What the component acts on besides its own state. *)
Record World := {
  localStorage : LocalStorage;
  (** the toasts shown so far, latest first *)
  toasts : list Toast.t;
  (** the messages of [console.error], latest first *)
  consoleErrors : list string
}.

Definition toast (x : Toast.t) (w : World) : World :=
  {| localStorage := localStorage w;
     toasts := x :: toasts w;
     consoleErrors := consoleErrors w |}.

Definition console_error (msg : string) (w : World) : World :=
  {| localStorage := localStorage w;
     toasts := toasts w;
     consoleErrors := msg :: consoleErrors w |}.

Definition with_storage (ls : LocalStorage) (w : World) : World :=
  {| localStorage := ls; toasts := toasts w; consoleErrors := consoleErrors w |}.

(** The component's state: its [useState] cells. *)
Record State := {
  tasks : list Task;
  editingTask : option Task;
  searchTerm : string;
  currentPage : Z;
  sortConfig : SortConfig;
  isClient : bool
}.

(** The state before the first render. *)
Definition initialState : State :=
  {| tasks := [];
     editingTask := None;
     searchTerm := "";
     currentPage := 1;
     sortConfig := {| key := Some Kdate; direction := descending |};
     isClient := false |}.

(* ================================================================== *)
(** * What the two revisions have in common                             *)
(* ================================================================== *)

Module Shared.

Definition TASKS_PER_PAGE : Z := 30.

(** [generateId]: ['_' + Math.random().toString(36).substr(2, 9)], for
    the draw [r] that [Math.random()] returns. *)
Definition generateId (rt : Runtime) (r : Draw) : string :=
  String.append "_" (JS.substr (toString36 rt r) 2 9).

(** ** [JSON.stringify(tasks)] *)

(** A task as [JSON.stringify] writes it: the date through [toJSON], an
    [undefined] link left out.  The members are in the order of the
    sample tasks; a task from the form has them in another order, and
    nothing that reads the document depends on the order. *)
Definition task_toJSON (t : Task) : json :=
  JObj ([("id", JStr (id t));
         ("date", JStr (JSDate.toISOString (date t)));
         ("description", JStr (description t))]
        ++ match link t with Some l => [("link", JStr l)] | None => [] end
        ++ [("status", JStr (status_text (status t)))]).

Definition stringify (ts : list Task) : json := JArr (map task_toJSON ts).

(** The member [name] of the stored record of a task. *)
Definition stored_member (name : string) (t : Task) : option json :=
  match task_toJSON t with
  | JObj ms => member name ms
  | _ => None
  end.

(** ** [JSON.parse(storedTasks).map(task => ({...task, date: new Date(task.date)}))] *)

Definition status_of_text (s : string) : option TaskStatus :=
  if String.eqb s "Pending" then Some Pending
  else if String.eqb s "Completed" then Some Completed
  else None.

(** The object a stored record becomes, when that object is a [Task].
    The source takes the records as [any] and does not check them: a
    record that gives [None] here puts an object that is no [Task] (a
    missing or ill-typed property, an Invalid Date) into the state. *)
Definition revive (j : json) : option Task :=
  match j with
  | JObj ms =>
      match member "id" ms, member "date" ms, member "description" ms,
            member "status" ms with
      | Some (JStr i), Some (JStr d), Some (JStr de), Some (JStr st) =>
          match JSDate.parse d, status_of_text st with
          | Some t, Some s =>
              match member "link" ms with
              | None =>
                  Some {| id := i; date := t; description := de;
                          link := None; status := s |}
              | Some (JStr l) =>
                  Some {| id := i; date := t; description := de;
                          link := Some l; status := s |}
              | Some _ => None
              end
          | _, _ => None
          end
      | _, _, _, _ => None
      end
  | _ => None
  end.

Definition is_null (j : json) : bool :=
  match j with JNull => true | _ => false end.

(** The outcome of the parse-and-map expression. *)
Inductive Parsed :=
| Tasks (ts : list Task)
(** an exception: [JSON.parse] rejects the text, the document has no
    [map] (it is no array), or a record is [null] and has no [date] *)
| Throws
(** the array holds a record that is no [Task] *)
| Untyped.

Definition parseTasks (s : Slot) : Parsed :=
  match s with
  | Doc (JArr items) =>
      if existsb is_null items then Throws
      else match traverse revive items with
           | Some ts => Tasks ts
           | None => Untyped
           end
  | _ => Throws
  end.

End Shared.
Import Shared.

(* ================================================================== *)
(** * The later revision of the page ([src/unnamed/part_002])           *)
(* ================================================================== *)

Module Part002.
Section Component.
Variable rt : Runtime.

Definition defaultSort : SortConfig :=
  {| key := Some Kdate; direction := descending |}.

Definition success (msg : string) : Toast.t :=
  {| Toast.title := "Success"; Toast.description := msg;
     Toast.variant := Toast.default |}.

(** ** Loading on mount *)

(** The [i]-th sample task, for the reading [now] of [Date.now()] and the
    draw [r] of [Math.random()] made for it. *)
Definition dummyTask (now : Z) (r : Draw) (i : Z) : Task :=
  {| id := generateId rt r;
     date := now - i * 24 * 60 * 60 * 1000;
     description :=
       String.append "Sample Task "
         (String.append (DateFns.decimal (i + 1))
                        " description about something important.");
     link := if i mod 5 =? 0
             then Some (String.append "https://example.com/task/"
                                      (DateFns.decimal (i + 1)))
             else None;
     status := if i mod 3 =? 0 then Completed else Pending |}.

(** [Array.from({ length: 35 }, (_, i) => ...)]: [clock i] and [random i]
    are what [Date.now()] and [Math.random()] return in the [i]-th call
    of the arrow function. *)
Definition dummyTasks (clock : nat -> Z) (random : nat -> Draw) : list Task :=
  map (fun i => dummyTask (clock i) (random i) (Z.of_nat i)) (seq 0 35).

Definition loadFailed (s : State) (w : World) : State * World :=
  ({| tasks := []; editingTask := editingTask s; searchTerm := searchTerm s;
      currentPage := currentPage s; sortConfig := sortConfig s;
      isClient := true |},
   toast {| Toast.title := "Error Loading Tasks";
            Toast.description := "Could not load tasks from local storage.";
            Toast.variant := Toast.destructive |}
         (console_error "Error loading tasks from localStorage:" w)).

Definition loaded (ts : list Task) (s : State) : State :=
  {| tasks := ts; editingTask := editingTask s; searchTerm := searchTerm s;
     currentPage := currentPage s; sortConfig := sortConfig s;
     isClient := true |}.

(** The effect that runs once, on mount.  [None]: the stored array holds a
    record that is no [Task], and the state leaves the type [Task[]]. *)
Definition loadEffect (clock : nat -> Z) (random : nat -> Draw)
           (s : State) (w : World) : option (State * World) :=
  match getItem (localStorage w) with
  | None => Some (loadFailed s w)
  | Some Absent =>
      let dummy := dummyTasks clock random in
      match setItem (localStorage w) (stringify dummy) with
      | Some ls => Some (loaded dummy s, with_storage ls w)
      | None => Some (loadFailed s w)
      end
  | Some stored =>
      match parseTasks stored with
      | Tasks ts => Some (loaded ts s, w)
      | Throws => Some (loadFailed s w)
      | Untyped => None
      end
  end.

(** ** Saving whenever the tasks change *)

Definition saveEffect (s : State) (w : World) : World :=
  if isClient s then
    match setItem (localStorage w) (stringify (tasks s)) with
    | Some ls => with_storage ls w
    | None =>
        toast {| Toast.title := "Error Saving Tasks";
                 Toast.description := "Could not save tasks locally.";
                 Toast.variant := Toast.destructive |}
              (console_error "Error saving tasks to localStorage:" w)
    end
  else w.

(** ** The handlers *)

Definition handleAddTask (values : Values) (r : Draw)
           (s : State) (w : World) : State * World :=
  let newTask :=
    {| id := generateId rt r;
       date := v_date values;
       description := v_description values;
       link := link_or_undefined (v_link values);
       status := v_status values |} in
  ({| tasks := newTask :: tasks s;
      editingTask := editingTask s;
      searchTerm := searchTerm s;
      currentPage := 1;
      sortConfig := defaultSort;
      isClient := isClient s |},
   toast (success "Task added successfully.") w).

Definition handleUpdateTask (values : Values)
           (s : State) (w : World) : State * World :=
  match editingTask s with
  | None => (s, w)
  | Some editing =>
      let updatedTask :=
        {| id := id editing;
           date := v_date values;
           description := v_description values;
           link := link_or_undefined (v_link values);
           status := v_status values |} in
      ({| tasks := map (fun task => if String.eqb (id task) (id editing)
                                    then updatedTask else task) (tasks s);
          editingTask := None;
          searchTerm := searchTerm s;
          currentPage := currentPage s;
          sortConfig := sortConfig s;
          isClient := isClient s |},
       toast (success "Task updated successfully.") w)
  end.

Definition handleDeleteTask (id0 : string)
           (s : State) (w : World) : State * World :=
  let newTasks := filter (fun task => negb (String.eqb (id task) id0)) (tasks s) in
  let newTotalPages := JS.ceil_div (Z.of_nat (List.length newTasks)) TASKS_PER_PAGE in
  let page :=
    if (newTotalPages <? currentPage s) && (0 <? newTotalPages) then newTotalPages
    else if Nat.eqb (List.length newTasks) 0 then 1
    else currentPage s in
  ({| tasks := newTasks;
      editingTask := editingTask s;
      searchTerm := searchTerm s;
      currentPage := page;
      sortConfig := sortConfig s;
      isClient := isClient s |},
   toast (success "Task deleted successfully.") w).

Definition startEditing (task : Task) (s : State) : State :=
  {| tasks := tasks s; editingTask := Some task; searchTerm := searchTerm s;
     currentPage := currentPage s; sortConfig := sortConfig s;
     isClient := isClient s |}.

Definition cancelEditing (s : State) : State :=
  {| tasks := tasks s; editingTask := None; searchTerm := searchTerm s;
     currentPage := currentPage s; sortConfig := sortConfig s;
     isClient := isClient s |}.

Definition requestSort (k : TaskKey) (s : State) : State :=
  let direction0 :=
    if key_eqb (key (sortConfig s)) k && is_ascending (direction (sortConfig s))
    then descending
    else if key_eqb (key (sortConfig s)) k
            && negb (is_ascending (direction (sortConfig s)))
    then ascending
    else ascending in
  {| tasks := tasks s; editingTask := editingTask s; searchTerm := searchTerm s;
     currentPage := 1;
     sortConfig := {| key := Some k; direction := direction0 |};
     isClient := isClient s |}.

(** ** Filtering and sorting *)

Definition compareTasks (k : TaskKey) (dir : Direction) (a b : Task) : Z :=
  let aValue := prop k a in
  let bValue := prop k b in
  match aValue, bValue with
  | VUndefined, VUndefined => 0
  | VUndefined, _ => match dir with ascending => 1 | descending => -1 end
  | _, VUndefined => match dir with ascending => -1 | descending => 1 end
  | _, _ =>
      let comparison :=
        match aValue, bValue with
        | VString x, VString y => localeCompare rt x y
        | VDate x, VDate y => x - y
        | _, _ => 0
        end in
      match dir with ascending => comparison | descending => - comparison end
  end.

(** The test of the search filter, for the lower-cased term. *)
Definition matches (lowerCaseSearchTerm : string) (task : Task) : bool :=
  JS.includes (JS.toLowerCase (description task)) lowerCaseSearchTerm
  || JS.includes (DateFns.format_yyyy_MM_dd rt (date task)) lowerCaseSearchTerm
  || JS.includes (JS.toLowerCase (DateFns.format_PPP rt (date task))) lowerCaseSearchTerm
  || JS.includes (JS.toLowerCase (status_text (status task))) lowerCaseSearchTerm.

(** The sorting stage: [tempTasks.sort(...)] on the copy [[...tasks]]. *)
Definition sorted (ts : list Task) (cfg : SortConfig) : list Task :=
  match key cfg with
  | Some k => JS.sort (compareTasks k (direction cfg)) ts
  | None => ts
  end.

(** The filtering stage. *)
Definition searched (term : string) (ts : list Task) : list Task :=
  if JS.truthy term then filter (matches (JS.toLowerCase term)) ts else ts.

(** Whether the filtering stage keeps a task: every task passes an empty
    term. *)
Definition passes (term : string) (task : Task) : bool :=
  if JS.truthy term then matches (JS.toLowerCase term) task else true.

(** The memo [filteredTasks]. *)
Definition filteredTasks (ts : list Task) (term : string) (cfg : SortConfig)
  : list Task :=
  let tempTasks := ts in
  let tempTasks := sorted tempTasks cfg in
  searched term tempTasks.

(** ** Pagination *)

Definition totalPages (filtered : list Task) : Z :=
  JS.ceil_div (Z.of_nat (List.length filtered)) TASKS_PER_PAGE.

Definition validCurrentPage (page total : Z) : Z :=
  Z.max 1 (Z.min page (JS.or_one total)).

(** The memo [paginatedTasks]: the page it returns. *)
Definition paginatedTasks (filtered : list Task) (page total : Z) : list Task :=
  let startIndex := (validCurrentPage page total - 1) * TASKS_PER_PAGE in
  let endIndex := startIndex + TASKS_PER_PAGE in
  JS.slice filtered startIndex endIndex.

Definition goToPage (page : Z) (s : State) : State :=
  {| tasks := tasks s; editingTask := editingTask s; searchTerm := searchTerm s;
     currentPage := Z.max 1 (Z.min page (JS.or_one (totalPages
                      (filteredTasks (tasks s) (searchTerm s) (sortConfig s)))));
     sortConfig := sortConfig s; isClient := isClient s |}.

Definition handleSearchChange (value : string) (s : State) : State :=
  {| tasks := tasks s; editingTask := editingTask s; searchTerm := value;
     currentPage := 1; sortConfig := sortConfig s; isClient := isClient s |}.

Definition clearSearch (s : State) : State :=
  {| tasks := tasks s; editingTask := editingTask s; searchTerm := "";
     currentPage := 1; sortConfig := sortConfig s; isClient := isClient s |}.

(** ** A render *)

(** What a render derives from the state. *)
Record View := {
  shown : list Task;       (* [paginatedTasks] *)
  pages : Z;               (* [totalPages] *)
  matching : list Task     (* [filteredTasks] *)
}.

Definition view (s : State) : View :=
  let filtered := filteredTasks (tasks s) (searchTerm s) (sortConfig s) in
  {| shown := paginatedTasks filtered (currentPage s) (totalPages filtered);
     pages := totalPages filtered;
     matching := filtered |}.

(** The state a render leaves: [paginatedTasks] calls
    [setCurrentPage(validCurrentPage)] when the page is out of range, and
    touches nothing else. *)
Definition rendered (s : State) : State :=
  let filtered := filteredTasks (tasks s) (searchTerm s) (sortConfig s) in
  {| tasks := tasks s; editingTask := editingTask s; searchTerm := searchTerm s;
     currentPage := validCurrentPage (currentPage s) (totalPages filtered);
     sortConfig := sortConfig s; isClient := isClient s |}.

(** ** The user's actions *)

Inductive Action :=
| Add (values : Values) (r : Draw)
| Update (values : Values)
| Delete (id0 : string)
| StartEditing (task : Task)
| CancelEditing
| RequestSort (k : TaskKey)
| GoToPage (page : Z)
| SearchChange (value : string)
| ClearSearch.

Definition handle (a : Action) (s : State) (w : World) : State * World :=
  match a with
  | Add values r => handleAddTask values r s w
  | Update values => handleUpdateTask values s w
  | Delete id0 => handleDeleteTask id0 s w
  | StartEditing task => (startEditing task s, w)
  | CancelEditing => (cancelEditing s, w)
  | RequestSort k => (requestSort k s, w)
  | GoToPage page => (goToPage page s, w)
  | SearchChange value => (handleSearchChange value s, w)
  | ClearSearch => (clearSearch s, w)
  end.

(** Whether the handler calls [setTasks], which makes the saving effect
    run after the next render. *)
Definition setsTasks (a : Action) (s : State) : bool :=
  match a with
  | Add _ _ | Delete _ => true
  | Update _ => match editingTask s with Some _ => true | None => false end
  | _ => false
  end.

(** An action, the render that follows it and the effects of that
    render. *)
Definition dispatch (a : Action) (s : State) (w : World) : State * World :=
  let (s1, w1) := handle a s w in
  let s2 := rendered s1 in
  (s2, if setsTasks a s then saveEffect s2 w1 else w1).

End Component.
End Part002.

(* ================================================================== *)
(** * The page as [src/src/app/page.tsx] has it                         *)
(* ================================================================== *)

Module PageTsx.
Section Component.
Variable rt : Runtime.

Definition success (msg : string) : Toast.t :=
  {| Toast.title := "Success"; Toast.description := msg;
     Toast.variant := Toast.default |}.

(** ** Loading on mount *)

Definition dummyTask (now : Z) (r : Draw) (i : Z) : Task :=
  {| id := generateId rt r;
     date := now - i * 24 * 60 * 60 * 1000;
     description :=
       String.append "Sample Task "
         (String.append (DateFns.decimal (i + 1))
                        " description about something important.");
     link := Some (String.append "https://example.com/task/"
                                 (DateFns.decimal (i + 1)));
     status := if i mod 2 =? 0 then Completed else Pending |}.

(** [Array.from({ length: 5 }, (_, i) => ...)] *)
Definition dummyTasks (clock : nat -> Z) (random : nat -> Draw) : list Task :=
  map (fun i => dummyTask (clock i) (random i) (Z.of_nat i)) (seq 0 5).

Definition loadFailed (s : State) (w : World) : State * World :=
  ({| tasks := []; editingTask := editingTask s; searchTerm := searchTerm s;
      currentPage := currentPage s; sortConfig := sortConfig s;
      isClient := true |},
   console_error "Error loading tasks from localStorage:" w).

Definition loaded (ts : list Task) (s : State) : State :=
  {| tasks := ts; editingTask := editingTask s; searchTerm := searchTerm s;
     currentPage := currentPage s; sortConfig := sortConfig s;
     isClient := true |}.

Definition loadEffect (clock : nat -> Z) (random : nat -> Draw)
           (s : State) (w : World) : option (State * World) :=
  match getItem (localStorage w) with
  | None => Some (loadFailed s w)
  | Some Absent =>
      let dummy := dummyTasks clock random in
      match setItem (localStorage w) (stringify dummy) with
      | Some ls => Some (loaded dummy s, with_storage ls w)
      | None => Some (loadFailed s w)
      end
  | Some stored =>
      match parseTasks stored with
      | Tasks ts => Some (loaded ts s, w)
      | Throws => Some (loadFailed s w)
      | Untyped => None
      end
  end.

(** ** Saving whenever the tasks change *)

Definition saveEffect (s : State) (w : World) : World :=
  if isClient s then
    match setItem (localStorage w) (stringify (tasks s)) with
    | Some ls => with_storage ls w
    | None =>
        toast {| Toast.title := "Error";
                 Toast.description := "Could not save tasks locally.";
                 Toast.variant := Toast.destructive |}
              (console_error "Error saving tasks to localStorage:" w)
    end
  else w.

(** ** The handlers *)

Definition handleAddTask (values : Values) (r : Draw)
           (s : State) (w : World) : State * World :=
  let newTask :=
    {| id := generateId rt r;
       date := v_date values;
       description := v_description values;
       link := link_or_undefined (v_link values);
       status := v_status values |} in
  ({| tasks := newTask :: tasks s;
      editingTask := editingTask s;
      searchTerm := searchTerm s;
      currentPage := currentPage s;
      sortConfig := sortConfig s;
      isClient := isClient s |},
   toast (success "Task added successfully.") w).

Definition handleUpdateTask (values : Values)
           (s : State) (w : World) : State * World :=
  match editingTask s with
  | None => (s, w)
  | Some editing =>
      let updatedTask :=
        {| id := id editing;
           date := v_date values;
           description := v_description values;
           link := link_or_undefined (v_link values);
           status := v_status values |} in
      ({| tasks := map (fun task => if String.eqb (id task) (id editing)
                                    then updatedTask else task) (tasks s);
          editingTask := None;
          searchTerm := searchTerm s;
          currentPage := currentPage s;
          sortConfig := sortConfig s;
          isClient := isClient s |},
       toast (success "Task updated successfully.") w)
  end.

Definition handleDeleteTask (id0 : string)
           (s : State) (w : World) : State * World :=
  ({| tasks := filter (fun task => negb (String.eqb (id task) id0)) (tasks s);
      editingTask := editingTask s;
      searchTerm := searchTerm s;
      currentPage := currentPage s;
      sortConfig := sortConfig s;
      isClient := isClient s |},
   toast (success "Task deleted successfully.") w).

Definition startEditing (task : Task) (s : State) : State :=
  {| tasks := tasks s; editingTask := Some task; searchTerm := searchTerm s;
     currentPage := currentPage s; sortConfig := sortConfig s;
     isClient := isClient s |}.

Definition cancelEditing (s : State) : State :=
  {| tasks := tasks s; editingTask := None; searchTerm := searchTerm s;
     currentPage := currentPage s; sortConfig := sortConfig s;
     isClient := isClient s |}.

Definition requestSort (k : TaskKey) (s : State) : State :=
  let direction0 :=
    if key_eqb (key (sortConfig s)) k && is_ascending (direction (sortConfig s))
    then descending
    else ascending in
  {| tasks := tasks s; editingTask := editingTask s; searchTerm := searchTerm s;
     currentPage := currentPage s;
     sortConfig := {| key := Some k; direction := direction0 |};
     isClient := isClient s |}.

(** ** Filtering and sorting *)

Definition compareTasks (k : TaskKey) (dir : Direction) (a b : Task) : Z :=
  let aValue := prop k a in
  let bValue := prop k b in
  match aValue, bValue with
  | VUndefined, VUndefined => 0
  | VUndefined, _ => match dir with ascending => 1 | descending => -1 end
  | _, VUndefined => match dir with ascending => -1 | descending => 1 end
  | _, _ =>
      let comparison :=
        match aValue, bValue with
        | VString x, VString y => localeCompare rt x y
        | VDate x, VDate y => x - y
        | _, _ => 0
        end in
      match dir with ascending => comparison | descending => - comparison end
  end.

Definition matches (lowerCaseSearchTerm : string) (task : Task) : bool :=
  JS.includes (JS.toLowerCase (description task)) lowerCaseSearchTerm
  || JS.includes (DateFns.format_yyyy_MM_dd rt (date task)) lowerCaseSearchTerm
  || JS.includes (JS.toLowerCase (DateFns.format_PP rt (date task))) lowerCaseSearchTerm.

(** Whether the filter keeps a task: every task passes an empty term. *)
Definition passes (term : string) (task : Task) : bool :=
  if JS.truthy term then matches (JS.toLowerCase term) task else true.

(** The array sorted as the memo sorts it. *)
Definition sorted (ts : list Task) (cfg : SortConfig) : list Task :=
  match key cfg with
  | Some k => JS.sort (compareTasks k (direction cfg)) ts
  | None => ts
  end.

(** The memo [filteredTasks].  The first component is the array the memo
    returns, the second is the contents of the state's array [tasks]
    once the memo has run: with an empty search term [filtered] is that
    very array, and [filtered.sort] sorts it in place; with a search
    term, [tasks.filter] has made a new array. *)
Definition filteredTasks (ts : list Task) (term : string) (cfg : SortConfig)
  : list Task * list Task :=
  if JS.truthy term then
    let filtered := filter (matches (JS.toLowerCase term)) ts in
    match key cfg with
    | Some k => (JS.sort (compareTasks k (direction cfg)) filtered, ts)
    | None => (filtered, ts)
    end
  else
    match key cfg with
    | Some k =>
        let inPlace := JS.sort (compareTasks k (direction cfg)) ts in
        (inPlace, inPlace)
    | None => (ts, ts)
    end.

(** ** Pagination *)

Definition totalPages (filtered : list Task) : Z :=
  JS.ceil_div (Z.of_nat (List.length filtered)) TASKS_PER_PAGE.

Definition paginatedTasks (filtered : list Task) (page : Z) : list Task :=
  let startIndex := (page - 1) * TASKS_PER_PAGE in
  let endIndex := startIndex + TASKS_PER_PAGE in
  JS.slice filtered startIndex endIndex.

Definition goToPage (page : Z) (s : State) : State :=
  {| tasks := tasks s; editingTask := editingTask s; searchTerm := searchTerm s;
     currentPage := Z.max 1 (Z.min page (totalPages
                      (fst (filteredTasks (tasks s) (searchTerm s) (sortConfig s)))));
     sortConfig := sortConfig s; isClient := isClient s |}.

(** The [onChange] of the search input. *)
Definition onSearchChange (value : string) (s : State) : State :=
  {| tasks := tasks s; editingTask := editingTask s; searchTerm := value;
     currentPage := 1; sortConfig := sortConfig s; isClient := isClient s |}.

(** The [onClick] of the clear-search button: [setSearchTerm("")]. *)
Definition onClearSearch (s : State) : State :=
  {| tasks := tasks s; editingTask := editingTask s; searchTerm := "";
     currentPage := currentPage s; sortConfig := sortConfig s;
     isClient := isClient s |}.

(** ** A render *)

Record View := {
  shown : list Task;       (* [paginatedTasks] *)
  pages : Z;               (* [totalPages] *)
  matching : list Task     (* [filteredTasks] *)
}.

Definition view (s : State) : View :=
  let filtered := fst (filteredTasks (tasks s) (searchTerm s) (sortConfig s)) in
  {| shown := paginatedTasks filtered (currentPage s);
     pages := totalPages filtered;
     matching := filtered |}.

(** The state a render leaves: the array [tasks] as the memo
    [filteredTasks] has left it. *)
Definition rendered (s : State) : State :=
  {| tasks := snd (filteredTasks (tasks s) (searchTerm s) (sortConfig s));
     editingTask := editingTask s; searchTerm := searchTerm s;
     currentPage := currentPage s;
     sortConfig := sortConfig s; isClient := isClient s |}.

(** ** The user's actions *)

Inductive Action :=
| Add (values : Values) (r : Draw)
| Update (values : Values)
| Delete (id0 : string)
| StartEditing (task : Task)
| CancelEditing
| RequestSort (k : TaskKey)
| GoToPage (page : Z)
| SearchChange (value : string)
| ClearSearch.

Definition handle (a : Action) (s : State) (w : World) : State * World :=
  match a with
  | Add values r => handleAddTask values r s w
  | Update values => handleUpdateTask values s w
  | Delete id0 => handleDeleteTask id0 s w
  | StartEditing task => (startEditing task s, w)
  | CancelEditing => (cancelEditing s, w)
  | RequestSort k => (requestSort k s, w)
  | GoToPage page => (goToPage page s, w)
  | SearchChange value => (onSearchChange value s, w)
  | ClearSearch => (onClearSearch s, w)
  end.

Definition setsTasks (a : Action) (s : State) : bool :=
  match a with
  | Add _ _ | Delete _ => true
  | Update _ => match editingTask s with Some _ => true | None => false end
  | _ => false
  end.

Definition dispatch (a : Action) (s : State) (w : World) : State * World :=
  let (s1, w1) := handle a s w in
  let s2 := rendered s1 in
  (s2, if setsTasks a s then saveEffect s2 w1 else w1).

End Component.
End PageTsx.

(* ================================================================== *)
(** * Concrete tasks, states and hosts                                  *)
(* ================================================================== *)

Module Examples.

Definition utc : Runtime := UtcHost.runtime.

(** 2024-01-01T00:00:00.000Z *)
Definition newYear : Z := 1704067200000.

Definition report : Task :=
  {| id := "_r1"; date := newYear; description := "Write report";
     link := None; status := Pending |}.

Definition milk : Task :=
  {| id := "_m2"; date := newYear + JSDate.msPerDay;
     description := "Buy milk";
     link := Some "https://example.com/milk"; status := Completed |}.

(** [n] tasks, one a day from the new year on. *)
Definition numbered (n : nat) : list Task :=
  map (fun i =>
         {| id := String.append "_t" (DateFns.decimal (Z.of_nat i));
            date := newYear + Z.of_nat i * JSDate.msPerDay;
            description := String.append "Task " (DateFns.decimal (Z.of_nat i));
            link := None; status := Pending |})
      (seq 0 n).

(** A mounted component that holds the tasks [ts] and shows page [page]
    for the search term [term]. *)
Definition showing (ts : list Task) (term : string) (page : Z) : State :=
  {| tasks := ts; editingTask := None; searchTerm := term;
     currentPage := page;
     sortConfig := {| key := Some Kdate; direction := descending |};
     isClient := true |}.

Definition storage (s : Slot) (canWrite : bool) : World :=
  {| localStorage := {| slot := s; readable := true; writable := canWrite |};
     toasts := []; consoleErrors := [] |}.

(** What the form yields for a new task. *)
Definition entry : Values :=
  {| v_id := None; v_date := newYear; v_description := "X";
     v_link := Some ""; v_status := Pending |}.

(** The draw 1/2 of [Math.random()]. *)
Definition half : Draw := (2 ^ 52)%N.

(** A clock that reads [now] at every call, and one that is [ms]
    milliseconds further at each call. *)
Definition steady (now : Z) : nat -> Z := fun _ => now.

(** Draws that differ from call to call. *)
Definition varying : nat -> Draw := fun i => (2 ^ 52 + N.of_nat i * 2 ^ 40)%N.

End Examples.

(* ================================================================== *)
(** * Notions that the statements use                                   *)
(* ================================================================== *)

Module Notions.

(** A task whose date is a valid date. *)
Definition valid_task (t : Task) : Prop := JSDate.valid_time (date t).

(** The task that [handleAddTask] makes of the form's values and of the
    draw for its id. *)
Definition added (rt : Runtime) (values : Values) (r : Draw) : Task :=
  {| id := generateId rt r;
     date := v_date values;
     description := v_description values;
     link := link_or_undefined (v_link values);
     status := v_status values |}.

(** The toast of the saving effect when the write has failed. *)
Definition savingError (title : string) : Toast.t :=
  {| Toast.title := title;
     Toast.description := "Could not save tasks locally.";
     Toast.variant := Toast.destructive |}.



End Notions.
(* ================================================================== *)
(** * The form, the mount, the table and the pager                      *)
(* ================================================================== *)

(** What [startEditing] puts into the form, [form.reset({...task, link:
    task.link || ''})], and what the form submits when the user changes
    nothing.  The same in both revisions. *)
Module Form.

Definition formOf (task : Task) : Values :=
  {| v_id := Some (id task);
     v_date := date task;
     v_description := description task;
     v_link := Some (match link task with
                     | Some l => if JS.truthy l then l else ""
                     | None => ""
                     end);
     v_status := status task |}.

End Form.

Module Part002App.
Section App.
Variable rt : Runtime.

(** The mount: the loading effect, the render that its [setTasks] and
    [setIsClient(true)] cause, and the saving effect of that render, which
    runs because [tasks] and [isClient] have changed.  (The saving effect
    of the first render sees [isClient = false] and does nothing.) *)
Definition mount (clock : nat -> Z) (random : nat -> Draw) (w : World)
  : option (State * World) :=
  match Part002.loadEffect rt clock random initialState w with
  | Some (s1, w1) =>
      let s2 := Part002.rendered rt s1 in
      Some (s2, Part002.saveEffect s2 w1)
  | None => None
  end.

(** A sequence of actions, each with its render and effects. *)
Fixpoint run (acts : list Part002.Action) (s : State) (w : World) : State * World :=
  match acts with
  | [] => (s, w)
  | a :: rest =>
      let (s1, w1) := Part002.dispatch rt a s w in
      run rest s1 w1
  end.

(** [const onSubmit = editingTask ? handleUpdateTask : handleAddTask] *)
Definition onSubmit (values : Values) (r : Draw) (s : State) (w : World)
  : State * World :=
  match editingTask s with
  | Some _ => Part002.handleUpdateTask values s w
  | None => Part002.handleAddTask rt values r s w
  end.

(** The row of the table body that stands for an empty page:
    [paginatedTasks.length > 0 ? rows : message]. *)
Definition emptyRow (s : State) : option string :=
  match Part002.shown (Part002.view rt s) with
  | _ :: _ => None
  | [] =>
      Some (if JS.truthy (searchTerm s)
            then "No tasks match your search criteria."
            else "No tasks added yet. Use the form above!")
  end.





End App.
End Part002App.

Module PageTsxApp.
Section App.
Variable rt : Runtime.

Definition mount (clock : nat -> Z) (random : nat -> Draw) (w : World)
  : option (State * World) :=
  match PageTsx.loadEffect rt clock random initialState w with
  | Some (s1, w1) =>
      let s2 := PageTsx.rendered rt s1 in
      Some (s2, PageTsx.saveEffect s2 w1)
  | None => None
  end.

Fixpoint run (acts : list PageTsx.Action) (s : State) (w : World) : State * World :=
  match acts with
  | [] => (s, w)
  | a :: rest =>
      let (s1, w1) := PageTsx.dispatch rt a s w in
      run rest s1 w1
  end.

End App.
End PageTsxApp.

(* ================================================================== *)
(** * The theme toggle ([src/unnamed/part_001])                         *)
(* ================================================================== *)

Module ThemeToggle.

(** What the button acts on: the system preference
    [(prefers-color-scheme: dark)], the slot ["theme"] of [localStorage]
    and whether reading and writing it return rather than throw, and the
    class ["dark"] of the document element. *)
Record Host := {
  prefersDark : bool;
  storedTheme : option string;
  canRead : bool;
  canWrite : bool;
  darkClass : bool
}.

Definition with_class (dark : bool) (h : Host) : Host :=
  {| prefersDark := prefersDark h; storedTheme := storedTheme h;
     canRead := canRead h; canWrite := canWrite h; darkClass := dark |}.

Definition with_theme (theme : string) (h : Host) : Host :=
  {| prefersDark := prefersDark h; storedTheme := Some theme;
     canRead := canRead h; canWrite := canWrite h; darkClass := darkClass h |}.

(** [storedTheme === "dark" || (!storedTheme && prefersDark)] *)
Definition startsDark (h : Host) : bool :=
  match storedTheme h with
  | Some t => String.eqb t "dark" || (negb (JS.truthy t) && prefersDark h)
  | None => prefersDark h
  end.

(** The effect on mount: the host it leaves and the value of
    [isDarkMode].  [None]: [getItem] has thrown, before anything was
    changed. *)
Definition mountEffect (h : Host) : option (Host * bool) :=
  if canRead h
  then Some (with_class (startsDark h) h, startsDark h)
  else None.

(** [toggleTheme], for the value [isDarkMode] of the state: the class is
    changed first; when [setItem] throws, the handler ends there and
    [setIsDarkMode] is not called. *)
Definition toggleTheme (h : Host) (isDarkMode : bool) : Host * bool :=
  if isDarkMode then
    let h1 := with_class false h in
    if canWrite h then (with_theme "light" h1, false) else (h1, isDarkMode)
  else
    let h1 := with_class true h in
    if canWrite h then (with_theme "dark" h1, true) else (h1, isDarkMode).

(** [n] clicks on the button. *)
Fixpoint clicks (n : nat) (h : Host) (isDarkMode : bool) : Host * bool :=
  match n with
  | O => (h, isDarkMode)
  | S n' => let (h1, d1) := toggleTheme h isDarkMode in clicks n' h1 d1
  end.

(** The host as a reload finds it: the page starts without the class, and
    the system preference may have changed. *)
Definition reloaded (prefers : bool) (h : Host) : Host :=
  {| prefersDark := prefers; storedTheme := storedTheme h;
     canRead := canRead h; canWrite := canWrite h; darkClass := false |}.

End ThemeToggle.

(** Two tests on a task. *)
Module Tests.

(** The task has a link ([task.link !== undefined]). *)
Definition has_link (t : Task) : bool :=
  match link t with Some _ => true | None => false end.

Definition is_completed (t : Task) : bool :=
  match status t with Completed => true | Pending => false end.

End Tests.

(** The store and the state of a mounted component with a store that
    accepts writes. *)
Module Mirror.

(** The store holds the tasks of the state. *)
Definition mirrored (s : State) (w : World) : Prop :=
  isClient s = true
  /\ writable (localStorage w) = true
  /\ slot (localStorage w) = Doc (stringify (tasks s)).

(** The store holds the tasks of the state in some order. *)
Definition mirrored_in_some_order (s : State) (w : World) : Prop :=
  isClient s = true
  /\ writable (localStorage w) = true
  /\ exists ts, slot (localStorage w) = Doc (stringify ts)
                /\ Permutation ts (tasks s).

End Mirror.

(** More concrete inputs. *)
Module Examples2.

Definition lightHost : ThemeToggle.Host :=
  {| ThemeToggle.prefersDark := false; ThemeToggle.storedTheme := None;
     ThemeToggle.canRead := true; ThemeToggle.canWrite := true;
     ThemeToggle.darkClass := false |}.

Definition fullHost : ThemeToggle.Host :=
  {| ThemeToggle.prefersDark := false; ThemeToggle.storedTheme := None;
     ThemeToggle.canRead := true; ThemeToggle.canWrite := false;
     ThemeToggle.darkClass := false |}.

End Examples2.

Import Notions.

(* ================================================================== *)
(** * Facts about the runtime                                           *)
(* ================================================================== *)

Module JSDateFacts.
Import JSDate.

Lemma cycle_bounds doe : 0 <= doe < 146097 ->
  0 <= yoe_of doe <= 399 /\ 0 <= doy_of doe <= 365.
Proof.
  intros H. unfold doy_of, yoe_of. Z.div_mod_to_equations. lia.
Qed.

Lemma month_bounds doy : 0 <= doy <= 365 ->
  0 <= mp_of doy <= 11 /\ 1 <= doy - (153 * mp_of doy + 2) / 5 + 1 <= 31.
Proof.
  intros H. unfold mp_of. Z.div_mod_to_equations. lia.
Qed.

Lemma month_of_mp_range mp : 0 <= mp <= 11 ->
  1 <= month_of_mp mp <= 12 /\ mp_of_month (month_of_mp mp) = mp
  /\ ((month_of_mp mp <=? 2) = negb (mp <? 10)).
Proof.
  intros H. unfold month_of_mp, mp_of_month.
  destruct (mp <? 10) eqn:E.
  - apply Z.ltb_lt in E.
    replace (2 <? mp + 3) with true by (symmetry; apply Z.ltb_lt; lia).
    replace (mp + 3 <=? 2) with false by (symmetry; apply Z.leb_gt; lia).
    cbn. lia.
  - apply Z.ltb_ge in E.
    replace (2 <? mp - 9) with false by (symmetry; apply Z.ltb_ge; lia).
    replace (mp - 9 <=? 2) with true by (symmetry; apply Z.leb_le; lia).
    cbn. lia.
Qed.

(** The calendar date names its day: the two conversions are inverse. *)
Lemma days_from_civil_from_days z : days_from_civil (civil_from_days z) = z.
Proof.
  unfold days_from_civil, civil_from_days; cbn [year month day].
  set (doe := (z + 719468) mod 146097).
  set (era := (z + 719468) / 146097).
  assert (Hd : 0 <= doe < 146097) by (apply Z.mod_pos_bound; lia).
  destruct (cycle_bounds doe Hd) as [Hy Hdoy].
  destruct (month_bounds _ Hdoy) as [Hmp Hday].
  destruct (month_of_mp_range _ Hmp) as (Hm & Hinv & _).
  rewrite Hinv.
  set (yoe := yoe_of doe) in *.
  set (c := if month_of_mp (mp_of (doy_of doe)) <=? 2 then 1 else 0).
  replace (yoe + era * 400 + c - c) with (yoe + era * 400) by lia.
  rewrite Z.div_add by lia. rewrite Z.mod_add by lia.
  rewrite (Z.mod_small yoe 400) by lia.
  rewrite (Z.div_small yoe 400) by lia.
  assert (E : z + 719468 = 146097 * era + doe) by (apply Z.div_mod; lia).
  unfold doy_of. fold yoe. lia.
Qed.

Lemma civil_month_day z :
  1 <= month (civil_from_days z) <= 12 /\ 1 <= day (civil_from_days z) <= 31.
Proof.
  unfold civil_from_days; cbn [month day].
  set (doe := (z + 719468) mod 146097).
  assert (Hd : 0 <= doe < 146097) by (apply Z.mod_pos_bound; lia).
  destruct (cycle_bounds doe Hd) as [Hy Hdoy].
  destruct (month_bounds _ Hdoy) as [Hmp Hday].
  destruct (month_of_mp_range _ Hmp) as (Hm & _ & _).
  lia.
Qed.

Lemma civil_year_bounds z : - 100000000 <= z <= 100000000 ->
  - 999999 <= year (civil_from_days z) <= 999999.
Proof.
  intros H. unfold civil_from_days; cbn [year].
  set (doe := (z + 719468) mod 146097).
  set (era := (z + 719468) / 146097).
  assert (Hd : 0 <= doe < 146097) by (apply Z.mod_pos_bound; lia).
  destruct (cycle_bounds doe Hd) as [Hy _].
  assert (E : z + 719468 = 146097 * era + doe) by (apply Z.div_mod; lia).
  destruct (_ <=? 2); lia.
Qed.

(** ** Reading back a field of digits *)

Lemma digit_val_char d : 0 <= d < 10 -> digit_val (digit_char d) = Some d.
Proof.
  intros H.
  assert (C : d = 0 \/ d = 1 \/ d = 2 \/ d = 3 \/ d = 4 \/ d = 5
              \/ d = 6 \/ d = 7 \/ d = 8 \/ d = 9) by lia.
  repeat (destruct C as [->|C]; [reflexivity|]). subst d. reflexivity.
Qed.

Lemma read_digits_digits w : forall n acc rest, 0 <= n ->
  read_digits w acc (digits w n ++ rest)
  = Some (acc * 10 ^ Z.of_nat w + n mod 10 ^ Z.of_nat w, rest).
Proof.
  induction w as [|w IH]; intros n acc rest Hn.
  - cbn [digits read_digits String.append]. rewrite Z.mod_1_r.
    f_equal. f_equal. cbn. lia.
  - cbn [digits read_digits String.append].
    rewrite digit_val_char by (apply Z.mod_pos_bound; lia).
    rewrite IH by lia. f_equal. f_equal.
    replace (Z.of_nat (S w)) with (Z.of_nat w + 1) by lia.
    rewrite Z.pow_add_r by lia. rewrite Z.pow_1_r.
    assert (P : 0 < 10 ^ Z.of_nat w) by (apply Z.pow_pos_nonneg; lia).
    rewrite (Z.rem_mul_r n (10 ^ Z.of_nat w) 10) by lia.
    lia.
Qed.

Lemma read_field w n rest : 0 <= n < 10 ^ Z.of_nat w ->
  read_digits w 0 (digits w n ++ rest) = Some (n, rest).
Proof.
  intros H. rewrite read_digits_digits by lia.
  rewrite Z.mod_small by lia. reflexivity.
Qed.

Lemma expect_char c rest : expect c (String c rest) = Some rest.
Proof. cbn. rewrite Ascii.eqb_refl. reflexivity. Qed.

Lemma read_year_iso y rest : - 999999 <= y <= 999999 ->
  read_year (iso_year y ++ rest) = Some (y, rest).
Proof.
  intros H. unfold iso_year.
  destruct ((0 <=? y) && (y <=? 9999)) eqn:E.
  - apply andb_prop in E as [E1 E2].
    apply Z.leb_le in E1. apply Z.leb_le in E2.
    rewrite <- (read_field 4 y rest) by (cbn; lia).
    change (digits 4 y) with
      (String (digit_char ((y / 10 ^ 3) mod 10)) (digits 3 y)).
    cbn [String.append].
    assert (D : 0 <= (y / 10 ^ 3) mod 10 < 10) by (apply Z.mod_pos_bound; lia).
    set (d := (y / 10 ^ 3) mod 10) in *.
    assert (C : d = 0 \/ d = 1 \/ d = 2 \/ d = 3 \/ d = 4 \/ d = 5
                \/ d = 6 \/ d = 7 \/ d = 8 \/ d = 9) by lia.
    repeat (destruct C as [->|C]; [reflexivity|]). rewrite C. reflexivity.
  - destruct (y <? 0) eqn:S.
    + apply Z.ltb_lt in S.
      change (read_year (String.append "-" (digits 6 (Z.abs y)) ++ rest)) with
        (match read_digits 6 0 (digits 6 (Z.abs y) ++ rest) with
         | Some (y0, r') => Some (- y0, r')
         | None => None
         end).
      rewrite read_field by (cbn; lia).
      f_equal. f_equal. lia.
    + apply Z.ltb_ge in S.
      change (read_year (String.append "+" (digits 6 (Z.abs y)) ++ rest)) with
        (read_digits 6 0 (digits 6 (Z.abs y) ++ rest)).
      rewrite read_field by (cbn; lia).
      f_equal. f_equal. lia.
Qed.

Lemma valid_timeb_iff t : valid_timeb t = true <-> valid_time t.
Proof.
  unfold valid_timeb, valid_time. rewrite andb_true_iff, !Z.leb_le. tauto.
Qed.

(** [new Date(d.toISOString())] has the time value of [d]. *)
Theorem parse_toISOString t : valid_time t -> parse (toISOString t) = Some t.
Proof.
  intros V. pose proof V as Vb. apply valid_timeb_iff in Vb.
  unfold valid_time, maxTime in V.
  unfold parse, toISOString, civil_of_time.
  set (z := Day t). set (w := TimeWithinDay t).
  assert (Hw : 0 <= w < msPerDay) by (apply Z.mod_pos_bound; reflexivity).
  assert (Hz : - 100000000 <= z <= 100000000).
  { unfold z, Day, msPerDay. Z.div_mod_to_equations. lia. }
  assert (Ht : t = z * msPerDay + w).
  { unfold z, w, Day, TimeWithinDay. rewrite (Z.div_mod t msPerDay) at 1 by (unfold msPerDay; lia). lia. }
  destruct (civil_month_day z) as [Hm Hd].
  pose proof (civil_year_bounds z Hz) as Hy.
  pose proof (days_from_civil_from_days z) as Hinv.
  destruct (civil_from_days z) as [y m d]; cbn [year month day] in *.
  unfold msPerDay in Hw.
  rewrite read_year_iso by lia.
  change (String.append "-" ?x) with (String "-" x).
  repeat first
    [ rewrite expect_char
    | rewrite read_field by (cbn; Z.div_mod_to_equations; lia)
    | match goal with
      | |- context [String.append (String ?c EmptyString) ?x] =>
          change (String.append (String c EmptyString) x) with (String c x)
      end ].
  cbn [String.append].
  replace ((1 <=? m) && (m <=? 12) && (1 <=? d) && (d <=? 31)
           && (w / 3600000 <=? 23) && ((w / 60000) mod 60 <=? 59)
           && ((w / 1000) mod 60 <=? 59)) with true.
  2:{ symmetry. rewrite !andb_true_iff, !Z.leb_le.
      Z.div_mod_to_equations. lia. }
  rewrite Hinv.
  replace (z * msPerDay + w / 3600000 * 3600000 + (w / 60000) mod 60 * 60000
           + (w / 1000) mod 60 * 1000 + w mod 1000) with t.
  2:{ rewrite Ht. unfold msPerDay. Z.div_mod_to_equations. lia. }
  rewrite Vb. reflexivity.
Qed.
End JSDateFacts.

Module SortFacts.
Import JS.

Section AnyComparator.
Context {A : Type} (cmp : A -> A -> Z).

Lemma insert_perm x l : Permutation (insert cmp x l) (x :: l).
Proof.
  induction l as [|y r IH]; cbn [insert]; [reflexivity|].
  destruct (cmp x y <=? 0); [reflexivity|].
  rewrite IH. apply perm_swap.
Qed.

Lemma sort_perm l : Permutation (sort cmp l) l.
Proof.
  induction l as [|x r IH]; cbn [sort]; [reflexivity|].
  rewrite insert_perm. now constructor.
Qed.

Lemma sort_In x l : In x (sort cmp l) <-> In x l.
Proof.
  split; apply Permutation_in; [|symmetry]; apply sort_perm.
Qed.

Lemma sort_length l : List.length (sort cmp l) = List.length l.
Proof. apply Permutation_length, sort_perm. Qed.

(** An array that is in order already is left as it is. *)
Lemma sort_in_order l :
  Sorted (fun a b => cmp a b <= 0) l -> sort cmp l = l.
Proof.
  induction 1 as [|x r Hs IH Hh]; cbn [sort]; [reflexivity|].
  rewrite IH. destruct Hh as [|y r' Hxy]; cbn [insert]; [reflexivity|].
  apply Z.leb_le in Hxy. now rewrite Hxy.
Qed.
End AnyComparator.

(** The comparators that are consistent: a total preorder. *)
Section Consistent.
Context {A : Type} (cmp : A -> A -> Z).
Local Abbreviation le := (notAfter cmp).
Hypothesis total : forall a b, le a b \/ le b a.
Hypothesis trans : forall a b c, le a b -> le b c -> le a c.

Lemma insert_sorted x l :
  StronglySorted le l -> StronglySorted le (insert cmp x l).
Proof.
  induction 1 as [|y r Hs IH Hall]; cbn [insert].
  - repeat constructor.
  - destruct (cmp x y <=? 0) eqn:E.
    + apply Z.leb_le in E. constructor; [now constructor|].
      constructor; [exact E|].
      eapply Forall_impl; [|exact Hall]. intros z Hz. now apply (trans x y z).
    + apply Z.leb_gt in E. constructor; [exact IH|].
      apply (Permutation_Forall (x := x :: r)).
      * symmetry. apply insert_perm.
      * constructor; [|exact Hall].
        destruct (total x y) as [H|H]; [unfold le in H; lia|exact H].
Qed.

Lemma sort_sorted l : StronglySorted le (sort cmp l).
Proof.
  induction l as [|x r IH]; cbn [sort]; [constructor|].
  now apply insert_sorted.
Qed.

Lemma insert_first x l : Forall (le x) l -> insert cmp x l = x :: l.
Proof.
  intros H. destruct H as [|y r Hxy _]; cbn [insert]; [reflexivity|].
  apply Z.leb_le in Hxy. now rewrite Hxy.
Qed.

Lemma filter_insert (p : A -> bool) x l :
  StronglySorted le l ->
  filter p (insert cmp x l)
  = if p x then insert cmp x (filter p l) else filter p l.
Proof.
  induction 1 as [|y r Hs IH Hall]; cbn [insert filter].
  - now destruct (p x).
  - destruct (cmp x y <=? 0) eqn:E.
    + cbn [filter]. destruct (p x); [|reflexivity].
      apply Z.leb_le in E.
      symmetry. apply insert_first.
      assert (F : Forall (le x) (y :: r)).
      { constructor; [exact E|].
        eapply Forall_impl; [|exact Hall]. intros z Hz. now apply (trans x y z). }
      rewrite Forall_forall in *. intros z Hz.
      apply F.
      change (In z (filter p (y :: r))) in Hz.
      apply filter_In in Hz. tauto.
    + cbn [filter]. rewrite IH.
      destruct (p y), (p x); cbn [insert]; try rewrite E; reflexivity.
Qed.

(** Filtering and sorting commute. *)
Lemma sort_filter (p : A -> bool) l :
  sort cmp (filter p l) = filter p (sort cmp l).
Proof.
  induction l as [|x r IH]; cbn [filter sort]; [reflexivity|].
  rewrite filter_insert by apply sort_sorted.
  destruct (p x); cbn [sort]; now rewrite IH.
Qed.

End Consistent.

End SortFacts.

Module StringFacts.
Import JS.

Lemma startsWith_iff s : forall p,
  startsWith s p = true <-> exists r, s = (p ++ r)%string.
Proof.
  induction s as [|b s' IH]; intros [|a p']; cbn [startsWith].
  - split; [exists ""; reflexivity|reflexivity].
  - split; [discriminate|intros [r Hr]; discriminate].
  - split; [exists (String b s'); reflexivity|reflexivity].
  - rewrite andb_true_iff, IH. split.
    + intros [E [r ->]]. apply Ascii.eqb_eq in E as ->. now exists r.
    + intros [r Hr]. cbn in Hr. injection Hr as -> ->.
      split; [apply Ascii.eqb_refl|now exists r].
Qed.

(** [includes] decides the substring relation. *)
Lemma includes_iff s : forall sub,
  includes s sub = true <-> Substring sub s.
Proof.
  unfold Substring.
  induction s as [|c r IH]; intros sub; cbn [includes].
  - rewrite startsWith_iff. split.
    + intros [x Hx]. now exists "", x.
    + intros (pre & post & H). destruct pre; [|discriminate]. now exists post.
  - rewrite orb_true_iff, startsWith_iff, IH. split.
    + intros [[x Hx]|(pre & post & H)].
      * now exists "", x.
      * exists (String c pre), post. cbn. now rewrite H.
    + intros (pre & post & H). destruct pre as [|c' pre'].
      * left. now exists post.
      * right. cbn in H. injection H as _ H. now exists pre', post.
Qed.

(** ** Strings that lower-casing leaves alone *)

Lemma toLowerCase_caseless s : caseless s = true -> toLowerCase s = s.
Proof.
  induction s as [|c r IH]; cbn [caseless toLowerCase]; [reflexivity|].
  rewrite andb_true_iff, negb_true_iff. intros [Hc Hr].
  unfold lower_char. rewrite Hc, IH by exact Hr. reflexivity.
Qed.

Lemma caseless_app a b :
  caseless (a ++ b) = caseless a && caseless b.
Proof.
  induction a as [|c r IH]; cbn [caseless String.append]; [reflexivity|].
  now rewrite IH, andb_assoc.
Qed.

Lemma caseless_uint d : caseless (NilEmpty.string_of_uint d) = true.
Proof. induction d; cbn [NilEmpty.string_of_uint caseless]; now rewrite ?IHd. Qed.

Lemma caseless_decimal n : caseless (DateFns.decimal n) = true.
Proof.
  unfold DateFns.decimal, NilZero.string_of_uint.
  destruct (N.to_uint (Z.to_N n)); try reflexivity; apply caseless_uint.
Qed.

Lemma caseless_zeros k : caseless (DateFns.zeros k) = true.
Proof. induction k; cbn [DateFns.zeros caseless]; now rewrite ?IHk. Qed.

Lemma caseless_addLeadingZeros n w :
  caseless (DateFns.addLeadingZeros n w) = true.
Proof.
  unfold DateFns.addLeadingZeros.
  rewrite !caseless_app, caseless_zeros, caseless_decimal.
  now destruct (n <? 0).
Qed.

(** The [yyyy-MM-dd] rendering has digits and hyphens only. *)
Lemma caseless_yyyy_MM_dd rt t : caseless (DateFns.format_yyyy_MM_dd rt t) = true.
Proof.
  unfold DateFns.format_yyyy_MM_dd.
  rewrite !caseless_app, !caseless_addLeadingZeros. reflexivity.
Qed.

Lemma toLowerCase_yyyy_MM_dd rt t :
  toLowerCase (DateFns.format_yyyy_MM_dd rt t) = DateFns.format_yyyy_MM_dd rt t.
Proof. apply toLowerCase_caseless, caseless_yyyy_MM_dd. Qed.

Lemma truthy_iff s : truthy s = true <-> s <> "".
Proof. destruct s; cbn; split; congruence. Qed.

End StringFacts.

Module CollationFacts.


Section Ordered.
Variable rt : Runtime.
Hypothesis C : Collation rt.

Lemma lc_total a b : localeCompare rt a b <= 0 \/ localeCompare rt b a <= 0.
Proof. pose proof (collation_flip rt C a b). lia. Qed.

Lemma lc_ge_total a b : 0 <= localeCompare rt a b \/ 0 <= localeCompare rt b a.
Proof. pose proof (collation_flip rt C a b). lia. Qed.

Lemma lc_ge_trans a b c :
  0 <= localeCompare rt a b -> 0 <= localeCompare rt b c ->
  0 <= localeCompare rt a c.
Proof.
  intros H1 H2.
  pose proof (collation_flip rt C a b). pose proof (collation_flip rt C b c).
  pose proof (collation_flip rt C a c).
  assert (localeCompare rt c a <= 0); [|lia].
  apply (collation_trans rt C c b a); lia.
Qed.

Ltac order_strings :=
  match goal with
  | |- localeCompare rt ?a ?b <= 0 \/ localeCompare rt ?b ?a <= 0 =>
      apply lc_total
  | |- - localeCompare rt ?a ?b <= 0 \/ - localeCompare rt ?b ?a <= 0 =>
      destruct (lc_ge_total a b); lia
  | H1 : localeCompare rt ?a ?b <= 0, H2 : localeCompare rt ?b ?c <= 0
    |- localeCompare rt ?a ?c <= 0 =>
      exact (collation_trans rt C a b c H1 H2)
  | H1 : - localeCompare rt ?a ?b <= 0, H2 : - localeCompare rt ?b ?c <= 0
    |- - localeCompare rt ?a ?c <= 0 =>
      pose proof (lc_ge_trans a b c); lia
  | _ => lia
  end.

Lemma compareTasks_total k dir a b :
  Part002.compareTasks rt k dir a b <= 0
  \/ Part002.compareTasks rt k dir b a <= 0.
Proof.
  unfold Part002.compareTasks.
  destruct k, dir; cbn [prop];
    try destruct (link a); try destruct (link b); order_strings.
Qed.

Lemma compareTasks_trans k dir a b c :
  Part002.compareTasks rt k dir a b <= 0 ->
  Part002.compareTasks rt k dir b c <= 0 ->
  Part002.compareTasks rt k dir a c <= 0.
Proof.
  unfold Part002.compareTasks.
  destruct k, dir; cbn [prop];
    try destruct (link a); try destruct (link b); try destruct (link c);
    intros H1 H2; order_strings.
Qed.
End Ordered.

(** ** The collation of the UTC host *)

Import UtcHost.

Lemma compareCodeUnits_flip a : forall b,
  Z.sgn (compareCodeUnits b a) = - Z.sgn (compareCodeUnits a b).
Proof.
  induction a as [|x a IH]; intros [|y b]; cbn [compareCodeUnits]; try reflexivity.
  rewrite (Nat.compare_antisym (nat_of_ascii x) (nat_of_ascii y)).
  destruct (Nat.compare (nat_of_ascii x) (nat_of_ascii y)); cbn [CompOpp];
    [apply IH|reflexivity|reflexivity].
Qed.

Lemma compareCodeUnits_trans a : forall b c,
  compareCodeUnits a b <= 0 -> compareCodeUnits b c <= 0 ->
  compareCodeUnits a c <= 0.
Proof.
  induction a as [|x a IH]; intros [|y b] [|z c]; cbn [compareCodeUnits];
    try lia.
  destruct (Nat.compare_spec (nat_of_ascii x) (nat_of_ascii y)) as [E1|E1|E1];
  destruct (Nat.compare_spec (nat_of_ascii y) (nat_of_ascii z)) as [E2|E2|E2];
  destruct (Nat.compare_spec (nat_of_ascii x) (nat_of_ascii z)) as [E3|E3|E3];
    try lia; intros H1 H2; try lia.
  now apply (IH b c).
Qed.

Lemma utc_collation : Collation runtime.
Proof.
  split; cbn [localeCompare runtime].
  - intros a b. apply compareCodeUnits_flip.
  - intros a b c. apply compareCodeUnits_trans.
Qed.

End CollationFacts.

(* ================================================================== *)
(** * The view pipeline: order of the stages                            *)
(* ================================================================== *)

Module PipelineOrder.



Section Stages.
Variable rt : Runtime.



Lemma sorted_same ts cfg : PageTsx.sorted rt ts cfg = Part002.sorted rt ts cfg.
Proof. reflexivity. Qed.

Hypothesis C : Collation rt.



End Stages.



End PipelineOrder.

(* ================================================================== *)
(** * The number of pages                                               *)
(* ================================================================== *)

Module PageCount.

Lemma ceil_div_spec n : 0 <= n ->
  TASKS_PER_PAGE * (JS.ceil_div n TASKS_PER_PAGE - 1) < n
  /\ n <= TASKS_PER_PAGE * JS.ceil_div n TASKS_PER_PAGE.
Proof.
  intros H. unfold JS.ceil_div, TASKS_PER_PAGE. Z.div_mod_to_equations. lia.
Qed.

Lemma slice_nil {A} a b : JS.slice (@nil A) a b = [].
Proof. unfold JS.slice. now rewrite skipn_nil, firstn_nil. Qed.

Lemma or_one_max n : 0 <= n -> JS.or_one n = Z.max 1 n.
Proof.
  intros H. unfold JS.or_one. destruct (n =? 0) eqn:E.
  - apply Z.eqb_eq in E. lia.
  - apply Z.eqb_neq in E. lia.
Qed.

Lemma pages_nonneg (l : list Task) :
  0 <= JS.ceil_div (Z.of_nat (List.length l)) TASKS_PER_PAGE.
Proof.
  unfold JS.ceil_div, TASKS_PER_PAGE. Z.div_mod_to_equations. lia.
Qed.

(** A search that matches nothing leaves 0 pages, not 1: the report is
    the one task, and it does not match ["zzz"]. *)
Lemma no_match_no_pages :
  let s := Examples.showing [Examples.report] "zzz" 1 in
  Part002.matching (Part002.view Examples.utc s) = []
  /\ Part002.pages (Part002.view Examples.utc s) = 0
  /\ Part002.pages (Part002.view Examples.utc s) <> 1
  /\ PageTsx.matching (PageTsx.view Examples.utc s) = []
  /\ PageTsx.pages (PageTsx.view Examples.utc s) = 0
  /\ PageTsx.pages (PageTsx.view Examples.utc s) <> 1.
Proof. vm_compute. repeat split; discriminate. Qed.

(** C2, as the code has it.  [totalPages] is the ceiling of the number
    of matching tasks over 30, with no minimum: it is 0 exactly when
    nothing matches.  The minimum of 1 is in the bound that the page is
    held to, [totalPages || 1] in [part_002], which is the larger of 1
    and [totalPages].  When nothing matches, the page shown is empty,
    and the current page is 1 after the render of [part_002] and after
    [goToPage] in [page.tsx]. *)
Theorem totalPages_is_ceiling (rt : Runtime) (s : State) :
  (let v := Part002.view rt s in
   let n := Z.of_nat (List.length (Part002.matching v)) in
   (TASKS_PER_PAGE * (Part002.pages v - 1) < n <= TASKS_PER_PAGE * Part002.pages v)
   /\ (Part002.pages v = 0 <-> Part002.matching v = [])
   /\ JS.or_one (Part002.pages v) = Z.max 1 (Part002.pages v)
   /\ (Part002.matching v = [] ->
       Part002.shown v = []
       /\ currentPage (Part002.rendered rt s) = 1
       /\ forall page, currentPage (Part002.goToPage rt page s) = 1))
  /\
  (let v := PageTsx.view rt s in
   let n := Z.of_nat (List.length (PageTsx.matching v)) in
   (TASKS_PER_PAGE * (PageTsx.pages v - 1) < n <= TASKS_PER_PAGE * PageTsx.pages v)
   /\ (PageTsx.pages v = 0 <-> PageTsx.matching v = [])
   /\ (PageTsx.matching v = [] ->
       PageTsx.shown v = []
       /\ forall page, currentPage (PageTsx.goToPage rt page s) = 1)).
Proof.
  split.
  - intros v n. subst v n.
    cbn [Part002.view Part002.matching Part002.pages Part002.shown].
    set (l := Part002.filteredTasks rt (tasks s) (searchTerm s) (sortConfig s)).
    unfold Part002.totalPages.
    pose proof (ceil_div_spec (Z.of_nat (List.length l)) (Zle_0_nat _)) as Hc.
    pose proof (pages_nonneg l) as Hp.
    split; [exact Hc|]. split; [|split].
    + unfold TASKS_PER_PAGE in *. split.
      * intros E. rewrite E in Hc. destruct l; [reflexivity|cbn [List.length] in Hc; lia].
      * intros ->. reflexivity.
    + now apply or_one_max.
    + intros E. split; [|split].
      * unfold Part002.paginatedTasks. rewrite E. apply slice_nil.
      * cbn [Part002.rendered currentPage]. fold l. rewrite E.
        unfold Part002.validCurrentPage, Part002.totalPages.
        cbn [List.length Z.of_nat]. change (JS.or_one (JS.ceil_div 0 TASKS_PER_PAGE)) with 1. lia.
      * intros page. cbn [Part002.goToPage currentPage]. fold l. rewrite E.
        unfold Part002.totalPages.
        cbn [List.length Z.of_nat]. change (JS.or_one (JS.ceil_div 0 TASKS_PER_PAGE)) with 1. lia.
  - intros v n. subst v n.
    cbn [PageTsx.view PageTsx.matching PageTsx.pages PageTsx.shown].
    set (l := fst (PageTsx.filteredTasks rt (tasks s) (searchTerm s) (sortConfig s))).
    unfold PageTsx.totalPages.
    pose proof (ceil_div_spec (Z.of_nat (List.length l)) (Zle_0_nat _)) as Hc.
    split; [exact Hc|]. split.
    + unfold TASKS_PER_PAGE in *. split.
      * intros E. rewrite E in Hc. destruct l; [reflexivity|cbn [List.length] in Hc; lia].
      * intros ->. reflexivity.
    + intros E. split.
      * unfold PageTsx.paginatedTasks. rewrite E. apply slice_nil.
      * intros page. cbn [PageTsx.goToPage currentPage]. fold l. rewrite E.
        unfold PageTsx.totalPages.
        cbn [List.length Z.of_nat]. change (JS.ceil_div 0 TASKS_PER_PAGE) with 0. lia.
Qed.

End PageCount.

(* ================================================================== *)
(** * What a render does to the array [tasks]                           *)
(* ================================================================== *)

Module RenderFrame.

(** In [part_002] the memo sorts the copy [[...tasks]]: a render leaves
    the array [tasks], its elements and their order, as it was, for
    every search term, sort configuration and page. *)
Lemma part002_render_keeps_tasks (rt : Runtime) (s : State) :
  tasks (Part002.rendered rt s) = tasks s
  /\ editingTask (Part002.rendered rt s) = editingTask s
  /\ searchTerm (Part002.rendered rt s) = searchTerm s
  /\ sortConfig (Part002.rendered rt s) = sortConfig s.
Proof. repeat split. Qed.

(** In [page.tsx] a render with a search term leaves the array alone:
    [tasks.filter] has made a new one. *)
Lemma pagetsx_render_with_term (rt : Runtime) (s : State) :
  searchTerm s <> "" -> tasks (PageTsx.rendered rt s) = tasks s.
Proof.
  intros H. apply StringFacts.truthy_iff in H.
  cbn [PageTsx.rendered tasks]. unfold PageTsx.filteredTasks.
  rewrite H. now destruct (key (sortConfig s)).
Qed.

(** Without a search term it sorts the array itself. *)
Lemma pagetsx_render_without_term (rt : Runtime) (s : State) (k : TaskKey) :
  searchTerm s = "" -> key (sortConfig s) = Some k ->
  tasks (PageTsx.rendered rt s)
  = JS.sort (PageTsx.compareTasks rt k (direction (sortConfig s))) (tasks s).
Proof.
  intros Ht Hk. cbn [PageTsx.rendered tasks]. unfold PageTsx.filteredTasks.
  rewrite Ht, Hk. reflexivity.
Qed.

(** C3 fails in [page.tsx].  With no search term the memo sorts the
    array [tasks] itself.  The store holds the report and then the milk;
    they are loaded in this order, and after the first render, under the
    default sort, the array [tasks] holds the milk and then the report.
    This is the order that the saving effect writes back.  [part_002]
    leaves the array as it was loaded. *)
Theorem pagetsx_render_sorts_tasks_in_place :
  let stored := [Examples.report; Examples.milk] in
  let w := Examples.storage (Doc (stringify stored)) true in
  let clock := Examples.steady Examples.newYear in
  match PageTsx.loadEffect Examples.utc clock Examples.varying initialState w,
        Part002.loadEffect Examples.utc clock Examples.varying initialState w with
  | Some (s, w1), Some (s', _) =>
      tasks s = stored
      /\ tasks (PageTsx.rendered Examples.utc s) = [Examples.milk; Examples.report]
      /\ tasks (PageTsx.rendered Examples.utc s) <> tasks s
      /\ slot (localStorage (PageTsx.saveEffect (PageTsx.rendered Examples.utc s) w1))
         = Doc (stringify [Examples.milk; Examples.report])
      /\ tasks s' = stored
      /\ tasks (Part002.rendered Examples.utc s') = stored
  | _, _ => False
  end.
Proof. vm_compute. repeat split. discriminate. Qed.

End RenderFrame.

(* ================================================================== *)
(** * Saving and loading again                                          *)
(* ================================================================== *)

Module RoundTrip.

Lemma status_of_text_status s : status_of_text (status_text s) = Some s.
Proof. now destruct s. Qed.

Lemma revive_toJSON t : valid_task t -> revive (task_toJSON t) = Some t.
Proof.
  intros V. destruct t as [i d de l st]. unfold valid_task in V. cbn [date] in V.
  unfold task_toJSON; cbn [id date description link status].
  destruct l as [l|]; cbn [app revive member String.eqb Ascii.eqb Bool.eqb];
    rewrite (JSDateFacts.parse_toISOString d V), status_of_text_status;
    reflexivity.
Qed.

Lemma no_null ts : existsb is_null (map task_toJSON ts) = false.
Proof. induction ts as [|t r IH]; cbn; [reflexivity|exact IH]. Qed.

Lemma traverse_revive ts :
  Forall valid_task ts -> traverse revive (map task_toJSON ts) = Some ts.
Proof.
  induction 1 as [|t r V _ IH]; cbn [map traverse]; [reflexivity|].
  now rewrite (revive_toJSON t V), IH.
Qed.

Lemma parse_stringify ts :
  Forall valid_task ts -> parseTasks (Doc (stringify ts)) = Tasks ts.
Proof.
  intros V. unfold parseTasks, stringify.
  now rewrite no_null, traverse_revive.
Qed.

(** What the record of a task holds for its date and its link. *)
Lemma stored_date_link t :
  stored_member "date" t = Some (JStr (JSDate.toISOString (date t)))
  /\ stored_member "link" t
     = match link t with Some l => Some (JStr l) | None => None end.
Proof.
  unfold stored_member, task_toJSON. destruct (link t); split; reflexivity.
Qed.

(** C4.  A collection whose dates are valid dates is loaded as it was
    saved, task for task and field for field: the document that the
    saving effect writes is parsed back to the same tasks, and the
    loading effect of a later mount puts these tasks into the state.
    In the document a date is its ISO string, read back to the same
    time value; a task without a link has no member [link], a task with
    a link, the empty string too, has that string. *)
Theorem load_after_save (rt : Runtime) (ts : list Task) :
  Forall (fun t => JSDate.valid_time (date t)) ts ->
  parseTasks (Doc (stringify ts)) = Tasks ts
  /\ (forall s w clock random s0,
         tasks s = ts -> isClient s = true ->
         readable (localStorage w) = true -> writable (localStorage w) = true ->
         Part002.loadEffect rt clock random s0 (Part002.saveEffect s w)
         = Some (Part002.loaded ts s0, Part002.saveEffect s w)
         /\ PageTsx.loadEffect rt clock random s0 (PageTsx.saveEffect s w)
            = Some (PageTsx.loaded ts s0, PageTsx.saveEffect s w))
  /\ Forall (fun t =>
               stored_member "date" t = Some (JStr (JSDate.toISOString (date t)))
               /\ JSDate.parse (JSDate.toISOString (date t)) = Some (date t)
               /\ (stored_member "link" t = None <-> link t = None)
               /\ (forall l, stored_member "link" t = Some (JStr l)
                             <-> link t = Some l)) ts.
Proof.
  intros V. split; [now apply parse_stringify|]. split.
  - intros s w clock random s0 <- Hc Hr Hw.
    unfold Part002.loadEffect, Part002.saveEffect,
           PageTsx.loadEffect, PageTsx.saveEffect.
    rewrite Hc. unfold setItem. rewrite Hw.
    unfold getItem.
    cbn [with_storage localStorage readable slot]. rewrite Hr.
    cbv iota. rewrite (parse_stringify _ V). split; reflexivity.
  - rewrite Forall_forall in *. intros t Ht.
    destruct (stored_date_link t) as [Hd Hl].
    split; [exact Hd|]. split; [apply JSDateFacts.parse_toISOString, V, Ht|].
    rewrite Hl. destruct (link t); split; split; congruence.
Qed.

(** The two sample tasks, one without a link, saved and loaded. *)
Lemma load_after_save_witness :
  parseTasks (Doc (stringify [Examples.report; Examples.milk]))
  = Tasks [Examples.report; Examples.milk].
Proof.
  apply (load_after_save Examples.utc [Examples.report; Examples.milk]).
  repeat constructor; vm_compute; discriminate.
Defined.

End RoundTrip.

(* ================================================================== *)
(** * The ids of added tasks                                            *)
(* ================================================================== *)

Module Ids.

(** The id of a new task is a function of the draw: no earlier id is
    looked at. *)
Lemma id_of_added (rt : Runtime) values r s w :
  map id (tasks (fst (Part002.handleAddTask rt values r s w)))
  = generateId rt r :: map id (tasks s)
  /\ map id (tasks (fst (PageTsx.handleAddTask rt values r s w)))
     = generateId rt r :: map id (tasks s).
Proof. split; reflexivity. Qed.

(** Two tasks that are added with the same draw have the same id, on
    every host. *)
Lemma same_draw_same_id (rt : Runtime) values r s w :
  let s1 := fst (Part002.handleAddTask rt values r s w) in
  let s2 := fst (Part002.handleAddTask rt values r s1 w) in
  ~ NoDup (map id (tasks s2)).
Proof.
  cbn. intros H. inversion H as [|x l Hn _]. apply Hn. now left.
Qed.

(** C5 fails.  [Math.random()] returns 1/2 for two calls of [add] in a
    row: both tasks get the id ["_i"].  One draw of 0 gives the id
    ["_"]. *)
Theorem two_adds_one_id :
  let w0 := Examples.storage (Doc (JArr [])) true in
  let s0 := Examples.showing [] "" 1 in
  let '(s1, w1) := Part002.dispatch Examples.utc
                     (Part002.Add Examples.entry Examples.half) s0 w0 in
  let '(s2, _) := Part002.dispatch Examples.utc
                     (Part002.Add Examples.entry Examples.half) s1 w1 in
  let '(p1, v1) := PageTsx.dispatch Examples.utc
                     (PageTsx.Add Examples.entry Examples.half) s0 w0 in
  let '(p2, _) := PageTsx.dispatch Examples.utc
                     (PageTsx.Add Examples.entry Examples.half) p1 v1 in
  map id (tasks s2) = ["_i"; "_i"]
  /\ map id (tasks p2) = ["_i"; "_i"]
  /\ ~ NoDup (map id (tasks s2))
  /\ ~ NoDup (map id (tasks p2))
  /\ generateId Examples.utc 0%N = "_".
Proof.
  vm_compute. repeat split;
    intros H; inversion H as [|x l Hn _]; apply Hn; now left.
Qed.

End Ids.

(* ================================================================== *)
(** * What the search matches                                           *)
(* ================================================================== *)

Module SearchFilter.

Import JS.

Section Matches.
Variable rt : Runtime.

Lemma part002_matches_iff q task :
  Part002.matches rt q task = true <->
  Substring q (toLowerCase (description task))
  \/ Substring q (toLowerCase (DateFns.format_yyyy_MM_dd rt (date task)))
  \/ Substring q (toLowerCase (DateFns.format_PPP rt (date task)))
  \/ Substring q (toLowerCase (status_text (status task))).
Proof.
  unfold Part002.matches.
  rewrite StringFacts.toLowerCase_yyyy_MM_dd.
  rewrite !orb_true_iff, !StringFacts.includes_iff. tauto.
Qed.

Lemma pagetsx_matches_iff q task :
  PageTsx.matches rt q task = true <->
  Substring q (toLowerCase (description task))
  \/ Substring q (toLowerCase (DateFns.format_yyyy_MM_dd rt (date task)))
  \/ Substring q (toLowerCase (DateFns.format_PP rt (date task))).
Proof.
  unfold PageTsx.matches.
  rewrite StringFacts.toLowerCase_yyyy_MM_dd.
  rewrite !orb_true_iff, !StringFacts.includes_iff. tauto.
Qed.
End Matches.

(** In [page.tsx] the status is not searched, and the date is rendered
    in the medium format, with the month abbreviated: the task "Buy
    milk" of 2 January 2024 is Completed, and neither the term
    ["Completed"] nor the term ["January"] finds it.  [part_002] finds
    it with both. *)
Lemma pagetsx_misses_status :
  let task := Examples.milk in
  Substring (toLowerCase "Completed") (toLowerCase (status_text (status task)))
  /\ PageTsx.passes Examples.utc "Completed" task = false
  /\ In task (Part002.filteredTasks Examples.utc [task] "Completed" Part002.defaultSort)
  /\ ~ In task (fst (PageTsx.filteredTasks Examples.utc [task] "Completed"
                                            Part002.defaultSort))
  /\ Substring (toLowerCase "January")
               (toLowerCase (DateFns.format_PPP Examples.utc (date task)))
  /\ PageTsx.passes Examples.utc "January" task = false
  /\ Part002.passes Examples.utc "January" task = true.
Proof.
  cbv zeta. split; [|split; [|split; [|split; [|split; [|split]]]]].
  - apply StringFacts.includes_iff. vm_compute. reflexivity.
  - vm_compute. reflexivity.
  - vm_compute. now left.
  - vm_compute. tauto.
  - apply StringFacts.includes_iff. vm_compute. reflexivity.
  - vm_compute. reflexivity.
  - vm_compute. reflexivity.
Qed.

(** C6, as the code has it.  A task passes a non-empty term exactly when
    the lower-cased term is a substring of one of the searched texts, in
    lower case.  In [part_002] these are the description, the date as
    [yyyy-MM-dd], the date in the long format [PPP] and the status.  In
    [page.tsx] they are the description, the date as [yyyy-MM-dd] and
    the date in the medium format [PP]; the status is not searched.
    The tasks that match are the stored tasks that pass. *)
Theorem search_matches (rt : Runtime) (term : string) (task : Task) :
  term <> "" ->
  let q := toLowerCase term in
  (Part002.passes rt term task = true <->
     Substring q (toLowerCase (description task))
     \/ Substring q (toLowerCase (DateFns.format_yyyy_MM_dd rt (date task)))
     \/ Substring q (toLowerCase (DateFns.format_PPP rt (date task)))
     \/ Substring q (toLowerCase (status_text (status task))))
  /\ (PageTsx.passes rt term task = true <->
        Substring q (toLowerCase (description task))
        \/ Substring q (toLowerCase (DateFns.format_yyyy_MM_dd rt (date task)))
        \/ Substring q (toLowerCase (DateFns.format_PP rt (date task))))
  /\ (forall ts cfg,
         In task (Part002.filteredTasks rt ts term cfg)
         <-> In task ts /\ Part002.passes rt term task = true)
  /\ (forall ts cfg,
         In task (fst (PageTsx.filteredTasks rt ts term cfg))
         <-> In task ts /\ PageTsx.passes rt term task = true).
Proof.
  intros Hne q. subst q. apply StringFacts.truthy_iff in Hne.
  unfold Part002.passes, PageTsx.passes. rewrite Hne.
  split; [apply part002_matches_iff|]. split; [apply pagetsx_matches_iff|].
  split; intros ts cfg.
  - unfold Part002.filteredTasks, Part002.searched, Part002.sorted. rewrite Hne.
    rewrite filter_In. destruct (key cfg); [rewrite SortFacts.sort_In|]; tauto.
  - unfold PageTsx.filteredTasks. rewrite Hne.
    destruct (key cfg); cbn [fst]; [rewrite SortFacts.sort_In|];
      rewrite filter_In; tauto.
Qed.

(** The term ["MILK"] and the task "Buy milk". *)
Lemma search_matches_witness :
  Part002.passes Examples.utc "MILK" Examples.milk = true <->
    Substring "milk" (toLowerCase (description Examples.milk))
    \/ Substring "milk" (toLowerCase
          (DateFns.format_yyyy_MM_dd Examples.utc (date Examples.milk)))
    \/ Substring "milk" (toLowerCase
          (DateFns.format_PPP Examples.utc (date Examples.milk)))
    \/ Substring "milk" (toLowerCase (status_text (status Examples.milk))).
Proof.
  apply (search_matches Examples.utc "MILK" Examples.milk). discriminate.
Defined.

End SearchFilter.

(* ================================================================== *)
(** * The page that is shown                                            *)
(* ================================================================== *)

Module PageShown.

Lemma slice_length {A} (l : list A) a b : 0 <= a <= b ->
  Z.of_nat (List.length (JS.slice l a b))
  = Z.min b (Z.of_nat (List.length l)) - Z.min a (Z.of_nat (List.length l)).
Proof.
  intros H. unfold JS.slice.
  replace (a <? 0) with false by (symmetry; apply Z.ltb_ge; lia).
  replace (b <? 0) with false by (symmetry; apply Z.ltb_ge; lia).
  rewrite length_firstn, length_skipn. lia.
Qed.


(** In [page.tsx] a render leaves the current page as it is, and a page
    beyond the last one is shown empty. *)
Lemma pagetsx_page_as_it_is (rt : Runtime) (s : State) :
  let v := PageTsx.view rt s in
  currentPage (PageTsx.rendered rt s) = currentPage s
  /\ (PageTsx.pages v < currentPage s -> PageTsx.shown v = []).
Proof.
  intros v. subst v. split; [reflexivity|].
  cbn [PageTsx.view PageTsx.pages PageTsx.shown].
  set (l := fst (PageTsx.filteredTasks rt (tasks s) (searchTerm s) (sortConfig s))).
  unfold PageTsx.totalPages, PageTsx.paginatedTasks. intros H.
  pose proof (PageCount.pages_nonneg l) as Hp.
  pose proof (PageCount.ceil_div_spec _ (Zle_0_nat (List.length l))) as Hc.
  unfold TASKS_PER_PAGE in *.
  apply length_zero_iff_nil. apply Nat2Z.inj.
  rewrite slice_length by lia. cbn [Z.of_nat]. lia.
Qed.

(** C7 fails in [page.tsx], where the memo reads [currentPage] as it is.
    There are 31 tasks; the user goes to the second page, which shows the
    oldest task, and deletes that task.  30 tasks are left, on one page,
    and the current page is still 2: the page shown is empty.  In
    [part_002] the same steps end on page 1, with the 30 tasks shown. *)
Theorem pagetsx_page_out_of_range :
  let s0 := Examples.showing (Examples.numbered 31) "" 1 in
  let w0 := Examples.storage Absent true in
  let '(s1, w1) := PageTsx.dispatch Examples.utc (PageTsx.GoToPage 2) s0 w0 in
  let '(s2, _) := PageTsx.dispatch Examples.utc (PageTsx.Delete "_t0") s1 w1 in
  let v2 := PageTsx.view Examples.utc s2 in
  let '(t1, x1) := Part002.dispatch Examples.utc (Part002.GoToPage 2) s0 w0 in
  let '(t2, _) := Part002.dispatch Examples.utc (Part002.Delete "_t0") t1 x1 in
  let u2 := Part002.view Examples.utc t2 in
  currentPage s1 = 2
  /\ map id (PageTsx.shown (PageTsx.view Examples.utc s1)) = ["_t0"]
  /\ List.length (PageTsx.matching v2) = 30%nat
  /\ PageTsx.pages v2 = 1
  /\ currentPage s2 = 2
  /\ PageTsx.shown v2 = []
  /\ currentPage t2 = 1
  /\ List.length (Part002.shown u2) = 30%nat.
Proof. vm_compute. repeat split. Qed.

End PageShown.

(* ================================================================== *)
(** * Going back to the first page                                      *)
(* ================================================================== *)

Module PageReset.

Lemma valid_of_one total : 0 <= total -> Part002.validCurrentPage 1 total = 1.
Proof.
  intros H. unfold Part002.validCurrentPage.
  rewrite (PageCount.or_one_max _ H). lia.
Qed.

(** In [part_002] every action that changes the search term or the sort
    configuration (its key or its direction) leaves the current page at
    1, in the handler and after the render that follows. *)
Lemma part002_resets_page (rt : Runtime) (a : Part002.Action) (s : State) (w : World) :
  let s1 := fst (Part002.handle rt a s w) in
  let s2 := fst (Part002.dispatch rt a s w) in
  (searchTerm s1 <> searchTerm s \/ sortConfig s1 <> sortConfig s ->
   currentPage s1 = 1)
  /\ (searchTerm s2 <> searchTerm s \/ sortConfig s2 <> sortConfig s ->
      currentPage s2 = 1).
Proof.
  intros s1 s2.
  assert (H1 : searchTerm s1 <> searchTerm s \/ sortConfig s1 <> sortConfig s ->
               currentPage s1 = 1).
  { subst s1. destruct a; cbn; try tauto.
    unfold Part002.handleUpdateTask. destruct (editingTask s); cbn; tauto. }
  split; [exact H1|].
  subst s2. unfold Part002.dispatch.
  destruct (Part002.handle rt a s w) as [t w1] eqn:E.
  subst s1. cbn [fst] in *. intros H.
  cbn [Part002.rendered searchTerm sortConfig currentPage] in *.
  rewrite (H1 H). apply valid_of_one. apply PageCount.pages_nonneg.
Qed.

(** The handlers of [part_002] that change the term or the sort. *)
Lemma part002_handlers (rt : Runtime) (s : State) :
  (forall k, currentPage (Part002.requestSort k s) = 1)
  /\ (forall value, currentPage (Part002.handleSearchChange value s) = 1)
  /\ currentPage (Part002.clearSearch s) = 1
  /\ (forall values r w,
         currentPage (fst (Part002.handleAddTask rt values r s w)) = 1).
Proof. repeat split. Qed.

(** In [page.tsx] sorting and clearing the search leave the current page
    where it is, whatever the page. *)
Lemma pagetsx_page_not_reset (rt : Runtime) (s : State) (w : World) :
  (forall k, currentPage (fst (PageTsx.dispatch rt (PageTsx.RequestSort k) s w))
             = currentPage s)
  /\ currentPage (fst (PageTsx.dispatch rt PageTsx.ClearSearch s w))
     = currentPage s.
Proof. split; reflexivity. Qed.

(** C8 fails in [page.tsx].  31 tasks match the term ["task"], and the
    user has gone to the second page.  Sorting by the description changes
    the sort key, sorting by the date changes the direction, the clear
    button changes the term: each leaves the current page at 2.  Typing
    in the search input goes back to page 1; so does each of them in
    [part_002]. *)
Theorem pagetsx_keeps_page :
  let s0 := Examples.showing (Examples.numbered 31) "task" 1 in
  let w0 := Examples.storage Absent true in
  let s := fst (PageTsx.dispatch Examples.utc (PageTsx.GoToPage 2) s0 w0) in
  let after a := fst (PageTsx.dispatch Examples.utc a s w0) in
  let t := fst (Part002.dispatch Examples.utc (Part002.GoToPage 2) s0 w0) in
  let after' a := fst (Part002.dispatch Examples.utc a t w0) in
  currentPage s = 2
  /\ (sortConfig (after (PageTsx.RequestSort Kdescription)) <> sortConfig s
      /\ currentPage (after (PageTsx.RequestSort Kdescription)) = 2)
  /\ (key (sortConfig (after (PageTsx.RequestSort Kdate))) = key (sortConfig s)
      /\ direction (sortConfig (after (PageTsx.RequestSort Kdate)))
         <> direction (sortConfig s)
      /\ currentPage (after (PageTsx.RequestSort Kdate)) = 2)
  /\ (searchTerm (after PageTsx.ClearSearch) <> searchTerm s
      /\ currentPage (after PageTsx.ClearSearch) = 2)
  /\ currentPage (after (PageTsx.SearchChange "t")) = 1
  /\ currentPage t = 2
  /\ currentPage (after' (Part002.RequestSort Kdescription)) = 1
  /\ currentPage (after' (Part002.RequestSort Kdate)) = 1
  /\ currentPage (after' Part002.ClearSearch) = 1.
Proof. vm_compute. repeat split; discriminate. Qed.

End PageReset.

(* ================================================================== *)
(** * A save that fails                                                 *)
(* ================================================================== *)

Module FailedSave.

Lemma pagetsx_render_perm rt s : Permutation (tasks (PageTsx.rendered rt s)) (tasks s).
Proof.
  cbn [PageTsx.rendered tasks]. unfold PageTsx.filteredTasks.
  destruct (JS.truthy (searchTerm s)), (key (sortConfig s)); cbn [snd];
    try reflexivity.
  apply SortFacts.sort_perm.
Qed.

(** C9.  The component is mounted and [localStorage.setItem] throws.
    Adding a task puts the task into the state all the same: in
    [part_002] it is the first of the tasks, before those that were
    there; in [page.tsx] the tasks are the new one and those that were
    there.  The handler reports its success, and the saving effect
    reports the failure: a destructive toast and a line on the console.
    Nothing throws, and the stored slot is as it was. *)
Theorem add_survives_failed_save
        (rt : Runtime) (values : Values) (r : Draw) (s : State) (w : World) :
  isClient s = true ->
  writable (localStorage w) = false ->
  let s1 := fst (Part002.dispatch rt (Part002.Add values r) s w) in
  let w1 := snd (Part002.dispatch rt (Part002.Add values r) s w) in
  let p1 := fst (PageTsx.dispatch rt (PageTsx.Add values r) s w) in
  let v1 := snd (PageTsx.dispatch rt (PageTsx.Add values r) s w) in
  (tasks s1 = added rt values r :: tasks s
   /\ toasts w1 = savingError "Error Saving Tasks"
                    :: Part002.success "Task added successfully." :: toasts w
   /\ consoleErrors w1 = "Error saving tasks to localStorage:" :: consoleErrors w
   /\ localStorage w1 = localStorage w)
  /\
  (In (added rt values r) (tasks p1)
   /\ Permutation (tasks p1) (added rt values r :: tasks s)
   /\ toasts v1 = savingError "Error"
                    :: PageTsx.success "Task added successfully." :: toasts w
   /\ consoleErrors v1 = "Error saving tasks to localStorage:" :: consoleErrors w
   /\ localStorage v1 = localStorage w).
Proof.
  intros Hc Hw s1 w1 p1 v1. subst s1 w1 p1 v1.
  unfold Part002.dispatch, PageTsx.dispatch.
  cbn [Part002.handle PageTsx.handle Part002.handleAddTask PageTsx.handleAddTask
       Part002.setsTasks PageTsx.setsTasks fst snd].
  unfold Part002.saveEffect, PageTsx.saveEffect.
  cbn [Part002.rendered PageTsx.rendered isClient]. rewrite Hc.
  unfold setItem. cbn [toast localStorage]. rewrite Hw.
  cbn [toast console_error toasts consoleErrors localStorage tasks].
  split; [repeat split|].
  fold (added rt values r).
  set (s' := {| tasks := added rt values r :: tasks s;
                editingTask := editingTask s; searchTerm := searchTerm s;
                currentPage := currentPage s; sortConfig := sortConfig s;
                isClient := true |}).
  pose proof (pagetsx_render_perm rt s') as P.
  cbn [PageTsx.rendered tasks] in P.
  subst s'. cbn [tasks searchTerm sortConfig] in P.
  split; [|split; [exact P|repeat split]].
  apply (Permutation_in _ (Permutation_sym P)). now left.
Qed.

(** A form entry added while the storage refuses to write. *)
Lemma add_survives_failed_save_witness :
  tasks (fst (Part002.dispatch Examples.utc
                (Part002.Add Examples.entry Examples.half)
                (Examples.showing [Examples.report] "" 1)
                (Examples.storage Absent false)))
  = [added Examples.utc Examples.entry Examples.half; Examples.report].
Proof.
  apply (add_survives_failed_save Examples.utc Examples.entry Examples.half
           (Examples.showing [Examples.report] "" 1)
           (Examples.storage Absent false)); reflexivity.
Defined.

End FailedSave.

(* ================================================================== *)
(** * The first run                                                     *)
(* ================================================================== *)

Module FirstRun.



Section Seeds.
Variable rt : Runtime.
Variables (clock : nat -> Z) (random : nat -> Draw).

Lemma part002_length : List.length (Part002.dummyTasks rt clock random) = 35%nat.
Proof. reflexivity. Qed.

Lemma pagetsx_length : List.length (PageTsx.dummyTasks rt clock random) = 5%nat.
Proof. reflexivity. Qed.

Hypothesis within_a_day : forall i, clock (S i) - clock i < JSDate.msPerDay.



End Seeds.




End FirstRun.

(* ================================================================== *)
(** * More on the pages                                                 *)
(* ================================================================== *)

Module Paging.

Lemma firstn_plus {A} (a b : nat) : forall l : list A,
  firstn (a + b) l = firstn a l ++ firstn b (skipn a l).
Proof.
  induction a as [|a IH]; intros l; [reflexivity|].
  destruct l as [|x r]; cbn [Nat.add firstn skipn app].
  - now rewrite firstn_nil.
  - now rewrite IH.
Qed.

(** A slice that starts at [a >= 0] and spans [k >= 0] indices. *)
Lemma slice_span {A} (l : list A) a k : 0 <= a -> 0 <= k ->
  JS.slice l a (a + k) = firstn (Z.to_nat k) (skipn (Z.to_nat a) l).
Proof.
  intros Ha Hk. unfold JS.slice.
  replace (a <? 0) with false by (symmetry; apply Z.ltb_ge; lia).
  replace (a + k <? 0) with false by (symmetry; apply Z.ltb_ge; lia).
  set (len := Z.of_nat (List.length l)).
  destruct (Z_le_gt_dec a len) as [H|H].
  - rewrite (Z.min_l a len) by lia.
    destruct (Z_le_gt_dec (a + k) len) as [H2|H2].
    + rewrite Z.min_l by lia. f_equal. f_equal. lia.
    + rewrite Z.min_r by lia.
      rewrite !firstn_all2; [reflexivity| |]; rewrite length_skipn; subst len; lia.
  - rewrite !Z.min_r by lia.
    rewrite (skipn_all2 l (n := Z.to_nat len)) by (subst len; lia).
    rewrite (skipn_all2 l (n := Z.to_nat a)) by (subst len; lia).
    now rewrite !firstn_nil.
Qed.

(** The chunks of [size] elements, one after the other, give the list
    back as far as they reach. *)
Lemma chunks_firstn {A} (l : list A) (size : nat) : forall n,
  List.concat (map (fun i => firstn size (skipn (size * i) l)) (seq 0 n))
  = firstn (size * n) l.
Proof.
  induction n as [|n IH].
  - now rewrite Nat.mul_0_r.
  - rewrite seq_S, map_app, concat_app, IH. cbn [map List.concat Nat.add].
    rewrite app_nil_r. replace (size * S n)%nat with (size * n + size)%nat by lia.
    now rewrite firstn_plus.
Qed.

Lemma page_chunk {A} (l : list A) (i : nat) :
  JS.slice l ((Z.of_nat (S i) - 1) * TASKS_PER_PAGE)
             ((Z.of_nat (S i) - 1) * TASKS_PER_PAGE + TASKS_PER_PAGE)
  = firstn 30 (skipn (30 * i) l).
Proof.
  unfold TASKS_PER_PAGE. rewrite slice_span by lia.
  f_equal. f_equal. lia.
Qed.

Lemma pages_reach (l : list Task) :
  (List.length l <= 30 * Z.to_nat (JS.ceil_div (Z.of_nat (List.length l)) TASKS_PER_PAGE))%nat.
Proof.
  pose proof (PageCount.ceil_div_spec _ (Zle_0_nat (List.length l))) as H.
  pose proof (PageCount.pages_nonneg l). unfold TASKS_PER_PAGE in *. lia.
Qed.

Lemma valid_in_range p total : 1 <= p <= total -> Part002.validCurrentPage p total = p.
Proof.
  intros H. unfold Part002.validCurrentPage, JS.or_one.
  replace (total =? 0) with false by (symmetry; apply Z.eqb_neq; lia). lia.
Qed.

(** The length of the slice that is page [p] of [l]. *)
Lemma page_length (l : list Task) (p : Z) :
  1 <= p <= JS.ceil_div (Z.of_nat (List.length l)) TASKS_PER_PAGE ->
  let page := JS.slice l ((p - 1) * TASKS_PER_PAGE)
                         ((p - 1) * TASKS_PER_PAGE + TASKS_PER_PAGE) in
  (0 < List.length page <= 30)%nat
  /\ (p < JS.ceil_div (Z.of_nat (List.length l)) TASKS_PER_PAGE ->
      List.length page = 30%nat).
Proof.
  intros Hp page. subst page.
  pose proof (PageCount.ceil_div_spec _ (Zle_0_nat (List.length l))) as Hc.
  unfold TASKS_PER_PAGE in *.
  assert (E : Z.of_nat (List.length (JS.slice l ((p - 1) * 30) ((p - 1) * 30 + 30)))
              = Z.min ((p - 1) * 30 + 30) (Z.of_nat (List.length l))
                - Z.min ((p - 1) * 30) (Z.of_nat (List.length l)))
    by (apply PageShown.slice_length; lia).
  lia.
Qed.

Lemma pages_concat (l : list Task) :
  List.concat
    (map (fun p => JS.slice l ((Z.of_nat p - 1) * TASKS_PER_PAGE)
                            ((Z.of_nat p - 1) * TASKS_PER_PAGE + TASKS_PER_PAGE))
         (seq 1 (Z.to_nat (JS.ceil_div (Z.of_nat (List.length l)) TASKS_PER_PAGE))))
  = l.
Proof.
  rewrite <- seq_shift, map_map.
  rewrite (map_ext _ (fun i => firstn 30 (skipn (30 * i) l)))
    by (intros i; apply page_chunk).
  rewrite chunks_firstn. apply firstn_all2. apply pages_reach.
Qed.

(** X1.  The pages cover the matching tasks: the pages 1 to [totalPages],
    one after the other, are the matching tasks, each once and in their
    order.  No page has more than 30 tasks, every page before the last has
    30, and the last has at least one.  This holds for the memo
    [paginatedTasks] of both revisions. *)
Theorem pages_partition (rt : Runtime) (s : State) :
  (let v := Part002.view rt s in
   let page p := Part002.paginatedTasks (Part002.matching v) p (Part002.pages v) in
   List.concat (map (fun p => page (Z.of_nat p)) (seq 1 (Z.to_nat (Part002.pages v))))
   = Part002.matching v
   /\ (forall p, 1 <= p <= Part002.pages v ->
         (0 < List.length (page p) <= 30)%nat
         /\ (p < Part002.pages v -> List.length (page p) = 30%nat)))
  /\
  (let v := PageTsx.view rt s in
   let page p := PageTsx.paginatedTasks (PageTsx.matching v) p in
   List.concat (map (fun p => page (Z.of_nat p)) (seq 1 (Z.to_nat (PageTsx.pages v))))
   = PageTsx.matching v
   /\ (forall p, 1 <= p <= PageTsx.pages v ->
         (0 < List.length (page p) <= 30)%nat
         /\ (p < PageTsx.pages v -> List.length (page p) = 30%nat))).
Proof.
  split.
  - intros v page. subst v page.
    cbn [Part002.view Part002.matching Part002.pages].
    set (l := Part002.filteredTasks rt (tasks s) (searchTerm s) (sortConfig s)).
    unfold Part002.totalPages. split.
    + etransitivity; [|exact (pages_concat l)]. f_equal. apply map_ext_in. intros p Hp.
      apply in_seq in Hp. unfold Part002.paginatedTasks.
      rewrite valid_in_range by lia. reflexivity.
    + intros p Hp. unfold Part002.paginatedTasks.
      rewrite valid_in_range by lia. now apply page_length.
  - intros v page. subst v page.
    cbn [PageTsx.view PageTsx.matching PageTsx.pages].
    set (l := fst (PageTsx.filteredTasks rt (tasks s) (searchTerm s) (sortConfig s))).
    unfold PageTsx.totalPages, PageTsx.paginatedTasks.
    split; [exact (pages_concat l)|intros p Hp; now apply page_length].
Qed.

End Paging.

(* ================================================================== *)
(** * Going from page to page                                           *)
(* ================================================================== *)

Module Navigation.

Lemma clamp_range page total : 0 <= total ->
  1 <= Z.max 1 (Z.min page (JS.or_one total)) <= Z.max 1 total
  /\ (1 <= page <= total -> Z.max 1 (Z.min page (JS.or_one total)) = page).
Proof.
  intros H. rewrite (PageCount.or_one_max _ H). lia.
Qed.

Lemma nonempty_pages (l : list Task) :
  l <> [] -> 1 <= JS.ceil_div (Z.of_nat (List.length l)) TASKS_PER_PAGE.
Proof.
  intros H.
  pose proof (PageCount.ceil_div_spec _ (Zle_0_nat (List.length l))) as Hc.
  unfold TASKS_PER_PAGE in *.
  destruct l; [congruence|]. cbn [List.length] in *. lia.
Qed.

(** X2.  [goToPage] lands on a page that exists: for every number asked
    for, the current page is then between 1 and the larger of 1 and
    [totalPages]; it is the number asked for when that is a page; asking
    again changes nothing; and the page then shown has a task whenever a
    task matches.  In both revisions. *)
Theorem goToPage_lands (rt : Runtime) (page : Z) (s : State) :
  (let s' := Part002.goToPage rt page s in
   let v := Part002.view rt s in
   1 <= currentPage s' <= Z.max 1 (Part002.pages v)
   /\ (1 <= page <= Part002.pages v -> currentPage s' = page)
   /\ Part002.goToPage rt page s' = s'
   /\ (Part002.matching v <> [] -> Part002.shown (Part002.view rt s') <> []))
  /\
  (let s' := PageTsx.goToPage rt page s in
   let v := PageTsx.view rt s in
   1 <= currentPage s' <= Z.max 1 (PageTsx.pages v)
   /\ (1 <= page <= PageTsx.pages v -> currentPage s' = page)
   /\ PageTsx.goToPage rt page s' = s'
   /\ (PageTsx.matching v <> [] -> PageTsx.shown (PageTsx.view rt s') <> [])).
Proof.
  split.
  - intros s' v. subst s' v.
    cbn [Part002.goToPage Part002.view Part002.pages Part002.matching
         Part002.shown currentPage tasks searchTerm sortConfig].
    set (l := Part002.filteredTasks rt (tasks s) (searchTerm s) (sortConfig s)).
    unfold Part002.totalPages.
    pose proof (PageCount.pages_nonneg l) as Hp.
    set (total := JS.ceil_div (Z.of_nat (List.length l)) TASKS_PER_PAGE) in *.
    destruct (clamp_range page total Hp) as [R1 R2].
    split; [exact R1|]. split; [exact R2|]. split.
    + reflexivity.
    + intros Hne. pose proof (nonempty_pages l Hne) as H1. fold total in H1.
      unfold Part002.paginatedTasks. fold total.
      set (p := Z.max 1 (Z.min page (JS.or_one total))) in *.
      rewrite Paging.valid_in_range by lia.
      destruct (Paging.page_length l p) as [L _]; [fold total; lia|].
      intros E. rewrite E in L. cbn in L. lia.
  - intros s' v. subst s' v.
    cbn [PageTsx.goToPage PageTsx.view PageTsx.pages PageTsx.matching
         PageTsx.shown currentPage tasks searchTerm sortConfig].
    set (l := fst (PageTsx.filteredTasks rt (tasks s) (searchTerm s) (sortConfig s))).
    unfold PageTsx.totalPages.
    pose proof (PageCount.pages_nonneg l) as Hp.
    set (total := JS.ceil_div (Z.of_nat (List.length l)) TASKS_PER_PAGE) in *.
    split; [lia|]. split; [lia|]. split.
    + reflexivity.
    + intros Hne. pose proof (nonempty_pages l Hne) as H1. fold total in H1.
      unfold PageTsx.paginatedTasks.
      set (p := Z.max 1 (Z.min page total)) in *.
      destruct (Paging.page_length l p) as [L _]; [fold total; lia|].
      intros E. rewrite E in L. cbn in L. lia.
Qed.




End Navigation.

(* ================================================================== *)
(** * Deleting and updating                                             *)
(* ================================================================== *)

Module Editing.

Lemma filter_keeps_all {A} (p : A -> bool) (l : list A) :
  (forall x, In x l -> p x = true) -> filter p l = l.
Proof.
  induction l as [|x r IH]; intros H; cbn [filter]; [reflexivity|].
  rewrite (H x (or_introl eq_refl)). f_equal. apply IH.
  intros y Hy. apply H. now right.
Qed.


Lemma same_delete id0 s w :
  tasks (fst (PageTsx.handleDeleteTask id0 s w))
  = tasks (fst (Part002.handleDeleteTask id0 s w)).
Proof. reflexivity. Qed.


(** X6.  The page after a delete in [part_002].  When the current page is
    at least 1, the handler leaves it at least 1 and at most the larger
    of 1 and the number of pages that the tasks left fill: it is kept
    when it still exists, is the last page when it has gone, and is 1
    when no task is left. *)
Theorem delete_adjusts_page (id0 : string) (s : State) (w : World) :
  1 <= currentPage s ->
  let s1 := fst (Part002.handleDeleteTask id0 s w) in
  let left := JS.ceil_div (Z.of_nat (List.length (tasks s1))) TASKS_PER_PAGE in
  1 <= currentPage s1 <= Z.max (Z.max 1 left) (currentPage s)
  /\ (currentPage s <= left -> currentPage s1 = currentPage s)
  /\ (0 < left < currentPage s -> currentPage s1 = left)
  /\ (tasks s1 = [] -> currentPage s1 = 1)
  /\ (currentPage s <= JS.ceil_div (Z.of_nat (List.length (tasks s))) TASKS_PER_PAGE ->
      currentPage s1 <= Z.max 1 left).
Proof.
  intros H s1 left. subst s1 left.
  cbn [Part002.handleDeleteTask fst tasks currentPage].
  set (l := filter _ (tasks s)).
  pose proof (PageCount.ceil_div_spec _ (Zle_0_nat (List.length l))) as Hc.
  pose proof (PageCount.ceil_div_spec _ (Zle_0_nat (List.length (tasks s)))) as Hc0.
  assert (Hl : (List.length l <= List.length (tasks s))%nat) by apply filter_length_le.
  set (n := JS.ceil_div (Z.of_nat (List.length l)) TASKS_PER_PAGE) in *.
  set (n0 := JS.ceil_div (Z.of_nat (List.length (tasks s))) TASKS_PER_PAGE) in *.
  unfold TASKS_PER_PAGE in *.
  assert (Z0 : n = 0 <-> l = []).
  { split; [|intros ->; reflexivity].
    intros E. destruct l; [reflexivity|]. cbn [List.length] in *. lia. }
  destruct (Nat.eqb (List.length l) 0) eqn:E3;
    [apply Nat.eqb_eq in E3|apply Nat.eqb_neq in E3];
  destruct (n <? currentPage s) eqn:E1;
    [apply Z.ltb_lt in E1|apply Z.ltb_ge in E1
    |apply Z.ltb_lt in E1|apply Z.ltb_ge in E1];
  destruct (0 <? n) eqn:E2;
    [apply Z.ltb_lt in E2|apply Z.ltb_ge in E2
    |apply Z.ltb_lt in E2|apply Z.ltb_ge in E2
    |apply Z.ltb_lt in E2|apply Z.ltb_ge in E2
    |apply Z.ltb_lt in E2|apply Z.ltb_ge in E2];
    cbn [andb];
    (split; [lia|]); (split; [lia|]); (split; [lia|]);
    (split; [intros El; apply Z0 in El; rewrite El in *; cbn [List.length] in *; lia|]);
    lia.
Qed.

(** The second of two pages, and the one task on it deleted. *)
Lemma delete_adjusts_page_witness :
  currentPage (fst (Part002.handleDeleteTask "_t0"
                      (Examples.showing (Examples.numbered 31) "" 2)
                      (Examples.storage Absent true)))
  = 1.
Proof.
  destruct (delete_adjusts_page "_t0"
              (Examples.showing (Examples.numbered 31) "" 2)
              (Examples.storage Absent true)) as (_ & _ & H & _).
  - vm_compute. discriminate.
  - apply H. vm_compute. split; reflexivity.
Defined.

End Editing.

(* ================================================================== *)
(** * Updating a task                                                   *)
(* ================================================================== *)

Module Updating.

Lemma map_unless {A} (p : A -> bool) (y : A) (l : list A) :
  (forall x, In x l -> p x = true -> x = y) ->
  map (fun x => if p x then y else x) l = l.
Proof.
  induction l as [|x r IH]; intros H; cbn [map]; [reflexivity|].
  rewrite IH by (intros z Hz; apply H; now right). f_equal.
  destruct (p x) eqn:P; [|reflexivity]. symmetry. apply H; [now left|exact P].
Qed.

Lemma unique_by_id (l : list Task) (a b : Task) :
  NoDup (map id l) -> In a l -> In b l -> id a = id b -> a = b.
Proof.
  induction l as [|x r IH]; intros N Ha Hb E; [destruct Ha|].
  cbn [map] in N. inversion N as [|? ? Hx Hr]; subst.
  destruct Ha as [<-|Ha], Hb as [<-|Hb]; try reflexivity.
  - exfalso. apply Hx. rewrite E. now apply in_map.
  - exfalso. apply Hx. rewrite <- E. now apply in_map.
  - now apply IH.
Qed.

Lemma link_or_undefined_form (l : option string) :
  l <> Some "" ->
  link_or_undefined (Some (match l with
                           | Some x => if JS.truthy x then x else ""
                           | None => ""
                           end)) = l.
Proof.
  intros H. destruct l as [[|c r]|]; cbn; congruence.
Qed.

Lemma same_update values s w :
  PageTsx.handleUpdateTask values s w = Part002.handleUpdateTask values s w.
Proof. reflexivity. Qed.

(** X7.  Updating, in both revisions.  An update keeps the ids of the
    tasks and their order, so it keeps their number and keeps the ids
    distinct when they were; it clears the task being edited.  When no
    stored task has the id of the task being edited (it has been deleted
    since), the tasks stay as they are and success is reported all the
    same.  When no task is being edited, nothing happens at all. *)
Theorem update_keeps_ids (values : Values) (s : State) (w : World) :
  let s1 := fst (Part002.handleUpdateTask values s w) in
  let w1 := snd (Part002.handleUpdateTask values s w) in
  PageTsx.handleUpdateTask values s w = Part002.handleUpdateTask values s w
  /\ map id (tasks s1) = map id (tasks s)
  /\ List.length (tasks s1) = List.length (tasks s)
  /\ (NoDup (map id (tasks s)) -> NoDup (map id (tasks s1)))
  /\ editingTask s1 = None
  /\ (forall e, editingTask s = Some e ->
        (forall t, In t (tasks s) -> id t <> id e -> In t (tasks s1))
        /\ (~ In (id e) (map id (tasks s)) -> tasks s1 = tasks s)
        /\ toasts w1 = Part002.success "Task updated successfully." :: toasts w)
  /\ (editingTask s = None -> s1 = s /\ w1 = w).
Proof.
  intros s1 w1. subst s1 w1. split; [reflexivity|].
  unfold Part002.handleUpdateTask.
  destruct (editingTask s) as [e|] eqn:E; cbn [fst snd tasks editingTask toast toasts].
  - assert (M : map id (map (fun task => if (id task =? id e)%string
                                         then {| id := id e; date := v_date values;
                                                 description := v_description values;
                                                 link := link_or_undefined (v_link values);
                                                 status := v_status values |}
                                         else task) (tasks s))
                = map id (tasks s)).
    { rewrite map_map. apply map_ext. intros t.
      destruct (id t =? id e)%string eqn:Q; [|reflexivity].
      apply String.eqb_eq in Q. now rewrite Q. }
    split; [exact M|]. split; [now rewrite length_map|].
    split; [now rewrite M|]. split; [reflexivity|]. split; [|discriminate].
    intros e' [= <-]. split; [|split; [|reflexivity]].
    + intros t Ht Hne. apply in_map_iff. exists t. split; [|exact Ht].
      apply String.eqb_neq in Hne. now rewrite Hne.
    + intros Hn. apply map_unless with (p := fun task => (id task =? id e)%string).
      intros t Ht Q. apply String.eqb_eq in Q. exfalso. apply Hn.
      rewrite <- Q. now apply in_map.
  - split; [reflexivity|]. split; [reflexivity|]. split; [tauto|].
    split; [exact E|]. split; [discriminate|]. intros _. split; reflexivity.
Qed.

(** X8.  Editing a task and submitting the form as [startEditing] has
    filled it leaves the tasks as they are, in both revisions, when the
    ids of the tasks are distinct and the link of the task is not the
    empty string.  (The form holds the empty string for a task without a
    link, and the handler turns it back into no link.) *)
Theorem edit_unchanged (rt : Runtime) (task : Task) (r : Draw) (s : State) (w : World) :
  In task (tasks s) ->
  NoDup (map id (tasks s)) ->
  link task <> Some "" ->
  let s1 := Part002.startEditing task s in
  let s2 := fst (Part002App.onSubmit rt (Form.formOf task) r s1 w) in
  tasks s2 = tasks s
  /\ editingTask s2 = None
  /\ tasks (fst (PageTsx.handleUpdateTask (Form.formOf task)
                   (PageTsx.startEditing task s) w)) = tasks s.
Proof.
  intros Hin Hnd Hl s1 s2. subst s1 s2.
  unfold Part002App.onSubmit, Part002.startEditing, PageTsx.startEditing,
         Part002.handleUpdateTask, PageTsx.handleUpdateTask.
  cbn [editingTask fst tasks Form.formOf v_date v_description v_link v_status].
  rewrite (link_or_undefined_form _ Hl).
  assert (M : map (fun t => if (id t =? id task)%string
                            then {| id := id task; date := date task;
                                    description := description task;
                                    link := link task; status := status task |}
                            else t) (tasks s) = tasks s).
  { apply map_unless with (p := fun t => (id t =? id task)%string).
    intros t Ht Q. apply String.eqb_eq in Q.
    rewrite (unique_by_id (tasks s) t task Hnd Ht Hin Q). now destruct task. }
  repeat split; exact M.
Qed.

(** The report, edited and submitted unchanged. *)
Lemma edit_unchanged_witness :
  tasks (fst (Part002App.onSubmit Examples.utc (Form.formOf Examples.report)
                Examples.half
                (Part002.startEditing Examples.report
                   (Examples.showing [Examples.report; Examples.milk] "" 1))
                (Examples.storage Absent true)))
  = [Examples.report; Examples.milk].
Proof.
  apply (edit_unchanged Examples.utc Examples.report Examples.half
           (Examples.showing [Examples.report; Examples.milk] "" 1)
           (Examples.storage Absent true)).
  - now left.
  - cbn. repeat constructor; cbn; intuition discriminate.
  - discriminate.
Defined.

(** X9.  No task gets the empty string for a link from the form: when no
    stored task has the link [""], none has it after any action, its
    render and its effects, in both revisions. *)
Theorem link_never_empty (rt : Runtime) (s : State) (w : World) :
  Forall (fun t => link t <> Some "") (tasks s) ->
  (forall a, Forall (fun t => link t <> Some "")
                    (tasks (fst (Part002.dispatch rt a s w))))
  /\ (forall a, Forall (fun t => link t <> Some "")
                       (tasks (fst (PageTsx.dispatch rt a s w)))).
Proof.
  intros H.
  assert (N : forall l, link_or_undefined l <> Some "").
  { intros [[|c r]|]; cbn; congruence. }
  assert (U : forall values e,
    Forall (fun t => link t <> Some "")
           (map (fun task => if (id task =? id e)%string
                             then {| id := id e; date := v_date values;
                                     description := v_description values;
                                     link := link_or_undefined (v_link values);
                                     status := v_status values |}
                             else task) (tasks s))).
  { intros values e. apply Forall_map. eapply Forall_impl; [|exact H].
    intros t Ht. destruct (id t =? id e)%string; [apply N|exact Ht]. }
  assert (D : forall id0,
    Forall (fun t => link t <> Some "")
           (filter (fun task => negb (id task =? id0)%string) (tasks s))).
  { intros id0. apply Forall_forall. intros t Ht. apply filter_In in Ht.
    rewrite Forall_forall in H. now apply H. }
  split; intros a.
  - unfold Part002.dispatch.
    destruct (Part002.handle rt a s w) as [s1 w1] eqn:E. cbn [fst Part002.rendered tasks].
    destruct a; cbn in E; try (injection E as <- _; cbn [tasks]; auto; fail).
    + injection E as <- _. cbn [tasks]. constructor; [apply N|exact H].
    + unfold Part002.handleUpdateTask in E. destruct (editingTask s);
        injection E as <- _; cbn [tasks]; auto.
  - unfold PageTsx.dispatch.
    destruct (PageTsx.handle rt a s w) as [s1 w1] eqn:E. cbn [fst].
    assert (G : Forall (fun t => link t <> Some "") (tasks s1)).
    { destruct a; cbn in E; try (injection E as <- _; cbn [tasks]; auto; fail).
      + injection E as <- _. cbn [tasks]. constructor; [apply N|exact H].
      + unfold PageTsx.handleUpdateTask in E. destruct (editingTask s);
          injection E as <- _; cbn [tasks]; auto. }
    eapply Permutation_Forall; [|exact G].
    symmetry. apply FailedSave.pagetsx_render_perm.
Qed.

(** The report and the milk, and a form entry with an empty link. *)
Lemma link_never_empty_witness :
  Forall (fun t => link t <> Some "")
         (tasks (fst (Part002.dispatch Examples.utc
                        (Part002.Add Examples.entry Examples.half)
                        (Examples.showing [Examples.report; Examples.milk] "" 1)
                        (Examples.storage Absent true)))).
Proof.
  apply (link_never_empty Examples.utc
           (Examples.showing [Examples.report; Examples.milk] "" 1)
           (Examples.storage Absent true)).
  repeat constructor; discriminate.
Defined.

End Updating.

(* ================================================================== *)
(** * More on sorting                                                   *)
(* ================================================================== *)

Module Sorting.

(** X10.  [requestSort], in both revisions.  On the column that is sorted
    already it flips the direction, so two clicks bring the sort
    configuration back; on another column it starts ascending, whatever
    the direction was.  The two revisions agree on the configuration, and
    neither touches the tasks or the search term. *)
Theorem requestSort_toggles (k : TaskKey) (s : State) :
  sortConfig (PageTsx.requestSort k s) = sortConfig (Part002.requestSort k s)
  /\ key (sortConfig (Part002.requestSort k s)) = Some k
  /\ (key (sortConfig s) = Some k ->
      direction (sortConfig (Part002.requestSort k s))
      = match direction (sortConfig s) with
        | ascending => descending
        | descending => ascending
        end
      /\ sortConfig (Part002.requestSort k (Part002.requestSort k s)) = sortConfig s
      /\ sortConfig (PageTsx.requestSort k (PageTsx.requestSort k s)) = sortConfig s)
  /\ (key (sortConfig s) <> Some k ->
      direction (sortConfig (Part002.requestSort k s)) = ascending
      /\ direction (sortConfig (Part002.requestSort k (Part002.requestSort k s)))
         = descending)
  /\ tasks (Part002.requestSort k s) = tasks s
  /\ searchTerm (Part002.requestSort k s) = searchTerm s.
Proof.
  destruct s as [ts e term page [[k0|] d] c];
    cbn [sortConfig key direction tasks searchTerm
         Part002.requestSort PageTsx.requestSort].
  - destruct k, k0, d; cbn; repeat split; try congruence; try discriminate;
      intros; exfalso; congruence.
  - destruct k, d; cbn; repeat split; try congruence; discriminate.
Qed.

(** The comparator on the dates needs nothing from the host. *)
Lemma date_total rt dir a b :
  JS.notAfter (Part002.compareTasks rt Kdate dir) a b
  \/ JS.notAfter (Part002.compareTasks rt Kdate dir) b a.
Proof. unfold JS.notAfter, Part002.compareTasks. destruct dir; cbn [prop]; lia. Qed.

Lemma date_trans rt dir a b c :
  JS.notAfter (Part002.compareTasks rt Kdate dir) a b ->
  JS.notAfter (Part002.compareTasks rt Kdate dir) b c ->
  JS.notAfter (Part002.compareTasks rt Kdate dir) a c.
Proof. unfold JS.notAfter, Part002.compareTasks. destruct dir; cbn [prop]; lia. Qed.

(** Elements that compare equal to each other are left in their order. *)
Lemma sort_ties {A} (cmp : A -> A -> Z) (l : list A) :
  (forall a b, In a l -> In b l -> cmp a b = 0) -> JS.sort cmp l = l.
Proof.
  intros H. apply SortFacts.sort_in_order.
  induction l as [|x r IH]; constructor.
  - apply IH. intros a b Ha Hb. apply H; now right.
  - destruct r as [|y r']; constructor.
    rewrite (H x y); [lia|now left|right; now left].
Qed.

(** X11.  Sorting by the date, in both revisions and on every host.
    Without a search term the tasks shown are the stored tasks, each
    once, ordered by their dates: never decreasing when ascending, never
    increasing when descending.  The sort is stable: the tasks of one
    date are in the order in which they are stored. *)
Theorem date_sort_orders (rt : Runtime) (ts : list Task) (dir : Direction) :
  let cfg := {| key := Some Kdate; direction := dir |} in
  let out := Part002.filteredTasks rt ts "" cfg in
  fst (PageTsx.filteredTasks rt ts "" cfg) = out
  /\ Permutation out ts
  /\ StronglySorted (fun a b => match dir with
                                | ascending => date a <= date b
                                | descending => date b <= date a
                                end) out
  /\ (forall d, filter (fun t => date t =? d) out = filter (fun t => date t =? d) ts).
Proof.
  intros cfg out. subst cfg out.
  unfold Part002.filteredTasks, Part002.searched, Part002.sorted, PageTsx.filteredTasks.
  cbn [JS.truthy key direction fst].
  split; [reflexivity|]. split; [apply SortFacts.sort_perm|]. split.
  - pose proof (SortFacts.sort_sorted (Part002.compareTasks rt Kdate dir)
                  (date_total rt dir) (date_trans rt dir) ts) as S.
    induction S as [|x r _ IH F]; constructor; [exact IH|].
    eapply Forall_impl; [|exact F]. intros y.
    unfold JS.notAfter, Part002.compareTasks. destruct dir; cbn [prop]; lia.
  - intros d.
    rewrite <- (SortFacts.sort_filter (Part002.compareTasks rt Kdate dir)
                  (date_total rt dir) (date_trans rt dir)).
    apply sort_ties. intros a b Ha Hb.
    apply filter_In in Ha as [_ Ha]. apply filter_In in Hb as [_ Hb].
    apply Z.eqb_eq in Ha. apply Z.eqb_eq in Hb.
    unfold Part002.compareTasks. destruct dir; cbn [prop]; lia.
Qed.

(** A sorted list splits in two when nothing of the second kind may stand
    before something of the first kind. *)
Lemma sorted_splits {A} (R : A -> A -> Prop) (p : A -> bool) (l : list A) :
  StronglySorted R l ->
  (forall a b, p a = false -> p b = true -> ~ R a b) ->
  l = filter p l ++ filter (fun x => negb (p x)) l.
Proof.
  intros S H. induction S as [|x r _ IH F]; [reflexivity|].
  cbn [filter]. destruct (p x) eqn:P; cbn [negb app].
  - now rewrite <- IH.
  - assert (N : forall y, In y r -> p y = false).
    { intros y Hy. destruct (p y) eqn:Q; [|reflexivity].
      exfalso. rewrite Forall_forall in F. exact (H x y P Q (F y Hy)). }
    assert (E1 : filter p r = []).
    { destruct (filter p r) as [|y ?] eqn:Fl; [reflexivity|].
      assert (I : In y (filter p r)) by (rewrite Fl; now left).
      apply filter_In in I as [I Q]. rewrite (N y I) in Q. discriminate. }
    assert (E2 : filter (fun x => negb (p x)) r = r).
    { apply Editing.filter_keeps_all. intros y Hy. now rewrite (N y Hy). }
    now rewrite E1, E2.
Qed.

(** X12.  Tasks without a link, when the tasks are sorted by the link
    (the comparator's test for [undefined]): with a consistent
    [localeCompare], ascending puts every task that has a link before
    every task that has none, and descending puts every task that has
    none before every task that has one. *)
Theorem undefined_links_at_the_end (rt : Runtime) (ts : list Task) :
  Collation rt ->
  (let out := Part002.sorted rt ts {| key := Some Klink; direction := ascending |} in
   out = filter Tests.has_link out ++ filter (fun t => negb (Tests.has_link t)) out)
  /\
  (let out := Part002.sorted rt ts {| key := Some Klink; direction := descending |} in
   out = filter (fun t => negb (Tests.has_link t)) out ++ filter Tests.has_link out).
Proof.
  intros C. split; intros out; subst out; unfold Part002.sorted; cbn [key direction].
  - apply (sorted_splits (JS.notAfter (Part002.compareTasks rt Klink ascending))).
    + apply SortFacts.sort_sorted.
      * apply (CollationFacts.compareTasks_total rt C).
      * apply (CollationFacts.compareTasks_trans rt C).
    + intros a b Pa Pb. unfold Tests.has_link in *.
      unfold JS.notAfter, Part002.compareTasks; cbn [prop].
      destruct (link a), (link b); try discriminate. lia.
  - set (l := JS.sort _ ts).
    rewrite (sorted_splits (JS.notAfter (Part002.compareTasks rt Klink descending))
               (fun t => negb (Tests.has_link t)) l) at 1.
    + f_equal. apply filter_ext. intros t. now rewrite negb_involutive.
    + apply SortFacts.sort_sorted.
      * apply (CollationFacts.compareTasks_total rt C).
      * apply (CollationFacts.compareTasks_trans rt C).
    + intros a b Pa Pb. unfold Tests.has_link in *.
      unfold JS.notAfter, Part002.compareTasks; cbn [prop].
      destruct (link a), (link b); try discriminate. lia.
Qed.

(** The milk has a link, the report has none. *)
Lemma undefined_links_at_the_end_witness :
  let out := Part002.sorted Examples.utc [Examples.report; Examples.milk]
               {| key := Some Klink; direction := ascending |} in
  out = filter Tests.has_link out ++ filter (fun t => negb (Tests.has_link t)) out.
Proof.
  apply (undefined_links_at_the_end Examples.utc [Examples.report; Examples.milk]
           CollationFacts.utc_collation).
Defined.

(** X13.  Sorting by the status: on a host whose [localeCompare] is
    consistent and puts "Completed" before "Pending", ascending lists
    every completed task before every pending one, and descending every
    pending task before every completed one; within each status the
    tasks are in their stored order. *)
Theorem completed_first (rt : Runtime) (ts : list Task) :
  Collation rt ->
  localeCompare rt "Completed" "Pending" < 0 ->
  let pending t := negb (Tests.is_completed t) in
  Part002.sorted rt ts {| key := Some Kstatus; direction := ascending |}
  = filter Tests.is_completed ts ++ filter pending ts
  /\ Part002.sorted rt ts {| key := Some Kstatus; direction := descending |}
     = filter pending ts ++ filter Tests.is_completed ts.
Proof.
  intros C Hcp pending. subst pending.
  pose proof (collation_flip rt C "Completed" "Pending") as Hf.
  assert (Hpc : 0 < localeCompare rt "Pending" "Completed") by lia.
  assert (Hcc : localeCompare rt "Completed" "Completed" = 0).
  { pose proof (collation_flip rt C "Completed" "Completed"). lia. }
  assert (Hpp : localeCompare rt "Pending" "Pending" = 0).
  { pose proof (collation_flip rt C "Pending" "Pending"). lia. }
  assert (G : forall dir (p : Task -> bool),
    (forall a b, p a = false -> p b = true ->
       ~ JS.notAfter (Part002.compareTasks rt Kstatus dir) a b) ->
    (forall a b, p a = p b -> Part002.compareTasks rt Kstatus dir a b = 0) ->
    JS.sort (Part002.compareTasks rt Kstatus dir) ts
    = filter p ts ++ filter (fun t => negb (p t)) ts).
  { intros dir p H1 H2.
    set (cmp := Part002.compareTasks rt Kstatus dir).
    assert (T1 := CollationFacts.compareTasks_total rt C Kstatus dir).
    assert (T2 := CollationFacts.compareTasks_trans rt C Kstatus dir).
    rewrite (sorted_splits (JS.notAfter cmp) p (JS.sort cmp ts)
               (SortFacts.sort_sorted cmp T1 T2 ts) H1).
    rewrite <- !(SortFacts.sort_filter cmp T1 T2).
    f_equal; apply sort_ties; intros a b Ha Hb;
      apply filter_In in Ha as [_ Ha]; apply filter_In in Hb as [_ Hb];
      apply H2; destruct (p a), (p b); try reflexivity; discriminate. }
  split; unfold Part002.sorted; cbn [key direction].
  - apply (G ascending Tests.is_completed).
    + intros a b Pa Pb. unfold Tests.is_completed in *.
      unfold JS.notAfter, Part002.compareTasks; cbn [prop].
      destruct (status a), (status b); try discriminate. cbn [status_text]. lia.
    + intros a b E. unfold Tests.is_completed in *.
      unfold Part002.compareTasks; cbn [prop].
      destruct (status a), (status b); try discriminate; cbn [status_text]; lia.
  - rewrite (G descending (fun t => negb (Tests.is_completed t))).
    + f_equal. apply filter_ext. intros t. now rewrite negb_involutive.
    + intros a b Pa Pb. unfold Tests.is_completed in *.
      unfold JS.notAfter, Part002.compareTasks; cbn [prop].
      destruct (status a), (status b); try discriminate. cbn [status_text]. lia.
    + intros a b E. unfold Tests.is_completed in *.
      unfold Part002.compareTasks; cbn [prop].
      destruct (status a), (status b); try discriminate; cbn [status_text]; lia.
Qed.

(** The report is pending, the milk is completed. *)
Lemma completed_first_witness :
  Part002.sorted Examples.utc [Examples.report; Examples.milk]
    {| key := Some Kstatus; direction := ascending |}
  = [Examples.milk; Examples.report].
Proof.
  apply (completed_first Examples.utc [Examples.report; Examples.milk]
           CollationFacts.utc_collation).
  vm_compute. reflexivity.
Defined.

(** X14.  A new task comes first in [part_002]: with no search term, a
    task that is added with a date not before the date of any stored task
    is the first task of the first page after the add, which is the
    current page.  (The handler resets the sort to the date, descending,
    and the page to 1.) *)
Theorem added_task_comes_first
        (rt : Runtime) (values : Values) (r : Draw) (s : State) (w : World) :
  searchTerm s = "" ->
  Forall (fun t => date t <= v_date values) (tasks s) ->
  let s1 := fst (Part002.dispatch rt (Part002.Add values r) s w) in
  currentPage s1 = 1
  /\ sortConfig s1 = Part002.defaultSort
  /\ hd_error (Part002.shown (Part002.view rt s1)) = Some (added rt values r)
  /\ hd_error (tasks s1) = Some (added rt values r).
Proof.
  intros Ht Hd s1. subst s1.
  set (l := Part002.filteredTasks rt (added rt values r :: tasks s) ""
              Part002.defaultSort).
  assert (E : fst (Part002.dispatch rt (Part002.Add values r) s w)
              = {| tasks := added rt values r :: tasks s;
                   editingTask := editingTask s;
                   searchTerm := "";
                   currentPage := Part002.validCurrentPage 1 (Part002.totalPages l);
                   sortConfig := Part002.defaultSort;
                   isClient := isClient s |}).
  { subst l. rewrite <- Ht. reflexivity. }
  rewrite E. clear E.
  assert (El : l = added rt values r
                   :: JS.sort (Part002.compareTasks rt Kdate descending) (tasks s)).
  { subst l. unfold Part002.filteredTasks, Part002.searched, Part002.sorted.
    cbn [JS.truthy Part002.defaultSort key direction JS.sort].
    apply SortFacts.insert_first.
    apply (Permutation_Forall (x := tasks s));
      [symmetry; apply SortFacts.sort_perm|].
    rewrite Forall_forall in *. intros t Hin. specialize (Hd t Hin).
    unfold JS.notAfter, Part002.compareTasks, added; cbn [prop date]. lia. }
  assert (Hp : Part002.validCurrentPage 1 (Part002.totalPages l) = 1).
  { apply PageReset.valid_of_one. apply PageCount.pages_nonneg. }
  cbn [currentPage sortConfig tasks hd_error].
  split; [exact Hp|]. split; [reflexivity|]. split; [|reflexivity].
  cbn [Part002.view Part002.shown tasks searchTerm sortConfig currentPage].
  fold l. unfold Part002.paginatedTasks. rewrite !Hp.
  change ((1 - 1) * TASKS_PER_PAGE) with (0 + 0).
  change (0 + 0 + TASKS_PER_PAGE) with (0 + 30).
  rewrite Paging.slice_span by lia. rewrite El. reflexivity.
Qed.

(** A task of a later day added to the report and the milk. *)
Lemma added_task_comes_first_witness :
  let values := {| v_id := None; v_date := Examples.newYear + 2 * JSDate.msPerDay;
                   v_description := "Later"; v_link := None;
                   v_status := Pending |} in
  hd_error (tasks (fst (Part002.dispatch Examples.utc
                          (Part002.Add values Examples.half)
                          (Examples.showing [Examples.report; Examples.milk] "" 1)
                          (Examples.storage Absent true))))
  = Some (added Examples.utc values Examples.half).
Proof.
  intros values.
  apply (added_task_comes_first Examples.utc values Examples.half
           (Examples.showing [Examples.report; Examples.milk] "" 1)
           (Examples.storage Absent true)).
  - reflexivity.
  - repeat constructor; vm_compute; discriminate.
Defined.

End Sorting.

(* ================================================================== *)
(** * More on the search                                                *)
(* ================================================================== *)

Module Searching.

Import JS.








End Searching.

(* ================================================================== *)
(** * The store and the state                                           *)
(* ================================================================== *)

Module Persistence.

(** The actions that do not call [setTasks] leave the tasks and the world
    to the handler's toasts. *)
Lemma part002_handle_frame rt a s w :
  isClient (fst (Part002.handle rt a s w)) = isClient s
  /\ localStorage (snd (Part002.handle rt a s w)) = localStorage w
  /\ (Part002.setsTasks a s = false -> tasks (fst (Part002.handle rt a s w)) = tasks s).
Proof.
  destruct a; cbn; try (repeat split; congruence).
  unfold Part002.handleUpdateTask. destruct (editingTask s); cbn;
    repeat split; congruence.
Qed.

Lemma pagetsx_handle_frame rt a s w :
  isClient (fst (PageTsx.handle rt a s w)) = isClient s
  /\ localStorage (snd (PageTsx.handle rt a s w)) = localStorage w
  /\ (PageTsx.setsTasks a s = false -> tasks (fst (PageTsx.handle rt a s w)) = tasks s).
Proof.
  destruct a; cbn; try (repeat split; congruence).
  unfold PageTsx.handleUpdateTask. destruct (editingTask s); cbn;
    repeat split; congruence.
Qed.

Lemma part002_dispatch_mirrors rt a s w :
  Mirror.mirrored s w ->
  Mirror.mirrored (fst (Part002.dispatch rt a s w)) (snd (Part002.dispatch rt a s w)).
Proof.
  intros (Hc & Hw & Hs). unfold Part002.dispatch.
  destruct (part002_handle_frame rt a s w) as (Fc & Fl & Ft).
  destruct (Part002.handle rt a s w) as [s1 w1]. cbn [fst snd] in *.
  unfold Mirror.mirrored. cbn [Part002.rendered isClient tasks].
  destruct (Part002.setsTasks a s).
  - unfold Part002.saveEffect. cbn [Part002.rendered isClient tasks].
    rewrite Fc, Hc. unfold setItem. rewrite Fl, Hw.
    cbn [with_storage localStorage writable slot]. repeat split; congruence.
  - rewrite Fl, (Ft eq_refl). repeat split; congruence.
Qed.

Lemma part002_run_mirrors rt acts : forall s w,
  Mirror.mirrored s w ->
  Mirror.mirrored (fst (Part002App.run rt acts s w)) (snd (Part002App.run rt acts s w)).
Proof.
  induction acts as [|a rest IH]; intros s w H; [exact H|].
  cbn [Part002App.run].
  pose proof (part002_dispatch_mirrors rt a s w H) as H1.
  destruct (Part002.dispatch rt a s w) as [s1 w1]. now apply IH.
Qed.

Lemma part002_load_keeps rt clock random s0 w s1 w1 :
  Part002.loadEffect rt clock random s0 w = Some (s1, w1) ->
  isClient s1 = true
  /\ (writable (localStorage w) = true -> writable (localStorage w1) = true).
Proof.
  unfold Part002.loadEffect, getItem, setItem.
  destruct (readable (localStorage w)); [|intros [= <- <-]; now split].
  destruct (slot (localStorage w)) as [| |j].
  - destruct (writable (localStorage w)); intros [= <- <-]; now split.
  - cbn. intros [= <- <-]; now split.
  - destruct (parseTasks (Doc j)); [| |discriminate]; intros [= <- <-]; now split.
Qed.

Lemma pagetsx_load_keeps rt clock random s0 w s1 w1 :
  PageTsx.loadEffect rt clock random s0 w = Some (s1, w1) ->
  isClient s1 = true
  /\ (writable (localStorage w) = true -> writable (localStorage w1) = true).
Proof.
  unfold PageTsx.loadEffect, getItem, setItem.
  destruct (readable (localStorage w)); [|intros [= <- <-]; now split].
  destruct (slot (localStorage w)) as [| |j].
  - destruct (writable (localStorage w)); intros [= <- <-]; now split.
  - cbn. intros [= <- <-]; now split.
  - destruct (parseTasks (Doc j)); [| |discriminate]; intros [= <- <-]; now split.
Qed.

(** X16.  In [part_002] the store mirrors the state.  Once the component
    has mounted on a store that accepts writes, the slot holds the
    document of the tasks of the state, and it does so after every
    sequence of actions: no action changes the tasks without the save
    that follows, and nothing else writes the slot. *)
Theorem store_mirrors_state (rt : Runtime) (clock : nat -> Z) (random : nat -> Draw)
        (w : World) (s0 : State) (w0 : World) (acts : list Part002.Action) :
  writable (localStorage w) = true ->
  Part002App.mount rt clock random w = Some (s0, w0) ->
  slot (localStorage w0) = Doc (stringify (tasks s0))
  /\ slot (localStorage (snd (Part002App.run rt acts s0 w0)))
     = Doc (stringify (tasks (fst (Part002App.run rt acts s0 w0)))).
Proof.
  intros Hw Hm. unfold Part002App.mount in Hm.
  destruct (Part002.loadEffect rt clock random initialState w) as [[s1 w1]|] eqn:L;
    [|discriminate].
  injection Hm as <- <-.
  destruct (part002_load_keeps _ _ _ _ _ _ _ L) as [Hc Hk].
  assert (M : Mirror.mirrored (Part002.rendered rt s1)
                (Part002.saveEffect (Part002.rendered rt s1) w1)).
  { unfold Mirror.mirrored, Part002.saveEffect.
    cbn [Part002.rendered isClient tasks]. rewrite Hc.
    unfold setItem. rewrite (Hk Hw).
    cbn [with_storage localStorage writable slot]. repeat split. }
  split; [apply M|]. apply (part002_run_mirrors rt acts _ _ M).
Qed.

(** A first run, then an add, a sort and a delete. *)
Lemma store_mirrors_state_witness :
  let w := Examples.storage Absent true in
  let acts := [Part002.Add Examples.entry Examples.half;
               Part002.RequestSort Kdescription;
               Part002.Delete "_i"] in
  match Part002App.mount Examples.utc (Examples.steady Examples.newYear)
                         Examples.varying w with
  | Some (s0, w0) =>
      slot (localStorage (snd (Part002App.run Examples.utc acts s0 w0)))
      = Doc (stringify (tasks (fst (Part002App.run Examples.utc acts s0 w0))))
  | None => False
  end.
Proof.
  intros w acts.
  destruct (Part002App.mount Examples.utc (Examples.steady Examples.newYear)
              Examples.varying w) as [[s0 w0]|] eqn:M.
  - apply (store_mirrors_state Examples.utc (Examples.steady Examples.newYear)
             Examples.varying w s0 w0 acts eq_refl M).
  - vm_compute in M. discriminate.
Defined.

Lemma pagetsx_dispatch_mirrors rt a s w :
  Mirror.mirrored_in_some_order s w ->
  Mirror.mirrored_in_some_order (fst (PageTsx.dispatch rt a s w))
                                (snd (PageTsx.dispatch rt a s w)).
Proof.
  intros (Hc & Hw & ts & Hs & Hp). unfold PageTsx.dispatch.
  destruct (pagetsx_handle_frame rt a s w) as (Fc & Fl & Ft).
  destruct (PageTsx.handle rt a s w) as [s1 w1]. cbn [fst snd] in *.
  unfold Mirror.mirrored_in_some_order. cbn [PageTsx.rendered isClient].
  destruct (PageTsx.setsTasks a s).
  - unfold PageTsx.saveEffect. cbn [PageTsx.rendered isClient].
    rewrite Fc, Hc. unfold setItem. rewrite Fl, Hw.
    cbn [with_storage localStorage writable slot].
    split; [reflexivity|]. split; [reflexivity|].
    eexists. split; reflexivity.
  - rewrite Fl. split; [congruence|]. split; [exact Hw|].
    exists ts. split; [exact Hs|].
    rewrite Hp, <- (Ft eq_refl). symmetry. apply FailedSave.pagetsx_render_perm.
Qed.

Lemma pagetsx_run_mirrors rt acts : forall s w,
  Mirror.mirrored_in_some_order s w ->
  Mirror.mirrored_in_some_order (fst (PageTsxApp.run rt acts s w))
                                (snd (PageTsxApp.run rt acts s w)).
Proof.
  induction acts as [|a rest IH]; intros s w H; [exact H|].
  cbn [PageTsxApp.run].
  pose proof (pagetsx_dispatch_mirrors rt a s w H) as H1.
  destruct (PageTsx.dispatch rt a s w) as [s1 w1]. now apply IH.
Qed.

(** X17.  In [page.tsx] the store holds the tasks of the state in some
    order.  Once the component has mounted on a store that accepts
    writes, after every sequence of actions the slot holds the document
    of a list with the same tasks as the state, each as often; the orders
    can differ, since a render sorts the array of the state without a
    save. *)
Theorem store_holds_the_tasks (rt : Runtime) (clock : nat -> Z) (random : nat -> Draw)
        (w : World) (s0 : State) (w0 : World) (acts : list PageTsx.Action) :
  writable (localStorage w) = true ->
  PageTsxApp.mount rt clock random w = Some (s0, w0) ->
  exists ts,
    slot (localStorage (snd (PageTsxApp.run rt acts s0 w0))) = Doc (stringify ts)
    /\ Permutation ts (tasks (fst (PageTsxApp.run rt acts s0 w0))).
Proof.
  intros Hw Hm. unfold PageTsxApp.mount in Hm.
  destruct (PageTsx.loadEffect rt clock random initialState w) as [[s1 w1]|] eqn:L;
    [|discriminate].
  injection Hm as <- <-.
  destruct (pagetsx_load_keeps _ _ _ _ _ _ _ L) as [Hc Hk].
  assert (M : Mirror.mirrored_in_some_order (PageTsx.rendered rt s1)
                (PageTsx.saveEffect (PageTsx.rendered rt s1) w1)).
  { unfold Mirror.mirrored_in_some_order, PageTsx.saveEffect.
    cbn [PageTsx.rendered isClient]. rewrite Hc.
    unfold setItem. rewrite (Hk Hw).
    cbn [with_storage localStorage writable slot].
    split; [reflexivity|]. split; [reflexivity|]. eexists. split; reflexivity. }
  apply (pagetsx_run_mirrors rt acts _ _ M).
Qed.

(** A stored pair of tasks, then a sort by the description: the store has
    the order of the mount, the state the new order. *)
Lemma store_holds_the_tasks_witness :
  let w := Examples.storage (Doc (stringify [Examples.report; Examples.milk])) true in
  match PageTsxApp.mount Examples.utc (Examples.steady Examples.newYear)
                         Examples.varying w with
  | Some (s0, w0) =>
      exists ts,
        slot (localStorage (snd (PageTsxApp.run Examples.utc
                                   [PageTsx.RequestSort Kdescription] s0 w0)))
        = Doc (stringify ts)
        /\ Permutation ts (tasks (fst (PageTsxApp.run Examples.utc
                                         [PageTsx.RequestSort Kdescription] s0 w0)))
  | None => False
  end.
Proof.
  intros w.
  destruct (PageTsxApp.mount Examples.utc (Examples.steady Examples.newYear)
              Examples.varying w) as [[s0 w0]|] eqn:M.
  - apply (store_holds_the_tasks Examples.utc (Examples.steady Examples.newYear)
             Examples.varying w s0 w0 [PageTsx.RequestSort Kdescription] eq_refl M).
  - vm_compute in M. discriminate.
Defined.

End Persistence.

(* ================================================================== *)
(** * Loading that fails, and loading a second time                     *)
(* ================================================================== *)

Module Loading.

(** X18.  A load that fails.  When [getItem] throws, when the stored text
    is not JSON, when the document is no array or holds a [null], and
    when nothing is stored but the samples cannot be written, the
    component starts with no tasks, mounted, with a line on the console;
    [part_002] shows a destructive toast as well, [page.tsx] shows none.
    The load itself leaves the store as it was.  The save that follows
    the mount then puts the empty list into a store that accepts writes:
    what was stored is gone. *)
Theorem load_failure (rt : Runtime) (clock : nat -> Z) (random : nat -> Draw) (w : World) :
  (readable (localStorage w) = false
   \/ (readable (localStorage w) = true
       /\ slot (localStorage w) <> Absent
       /\ parseTasks (slot (localStorage w)) = Throws)
   \/ (readable (localStorage w) = true
       /\ slot (localStorage w) = Absent
       /\ writable (localStorage w) = false)) ->
  (exists s1 w1,
      Part002.loadEffect rt clock random initialState w = Some (s1, w1)
      /\ tasks s1 = [] /\ isClient s1 = true
      /\ localStorage w1 = localStorage w
      /\ consoleErrors w1 = "Error loading tasks from localStorage:" :: consoleErrors w
      /\ toasts w1 = {| Toast.title := "Error Loading Tasks";
                        Toast.description := "Could not load tasks from local storage.";
                        Toast.variant := Toast.destructive |} :: toasts w
      /\ Part002App.emptyRow rt s1 = Some "No tasks added yet. Use the form above!"
      /\ (writable (localStorage w) = true ->
          exists s2 w2, Part002App.mount rt clock random w = Some (s2, w2)
                        /\ tasks s2 = []
                        /\ slot (localStorage w2) = Doc (JArr [])))
  /\
  (exists s1 w1,
      PageTsx.loadEffect rt clock random initialState w = Some (s1, w1)
      /\ tasks s1 = [] /\ isClient s1 = true
      /\ localStorage w1 = localStorage w
      /\ consoleErrors w1 = "Error loading tasks from localStorage:" :: consoleErrors w
      /\ toasts w1 = toasts w
      /\ (writable (localStorage w) = true ->
          exists s2 w2, PageTsxApp.mount rt clock random w = Some (s2, w2)
                        /\ tasks s2 = []
                        /\ slot (localStorage w2) = Doc (JArr []))).
Proof.
  intros H.
  assert (L1 : Part002.loadEffect rt clock random initialState w
               = Some (Part002.loadFailed initialState w)).
  { unfold Part002.loadEffect, getItem, setItem.
    destruct H as [Hr|[(Hr & Hs & Hp)|(Hr & Hs & Hw)]]; rewrite Hr; [reflexivity| |].
    - destruct (slot (localStorage w)); [congruence| |]; now rewrite Hp.
    - now rewrite Hs, Hw. }
  assert (L2 : PageTsx.loadEffect rt clock random initialState w
               = Some (PageTsx.loadFailed initialState w)).
  { unfold PageTsx.loadEffect, getItem, setItem.
    destruct H as [Hr|[(Hr & Hs & Hp)|(Hr & Hs & Hw)]]; rewrite Hr; [reflexivity| |].
    - destruct (slot (localStorage w)); [congruence| |]; now rewrite Hp.
    - now rewrite Hs, Hw. }
  split.
  - eexists _, _. split; [exact L1|].
    cbn [Part002.loadFailed tasks isClient toast console_error localStorage
         consoleErrors toasts initialState].
    repeat (split; [reflexivity|]).
    intros Hw. unfold Part002App.mount. rewrite L1.
    eexists _, _. split; [reflexivity|]. split; [reflexivity|].
    unfold Part002.saveEffect, setItem.
    cbn [Part002.rendered Part002.loadFailed isClient tasks toast console_error
         localStorage initialState].
    rewrite Hw. reflexivity.
  - eexists _, _. split; [exact L2|].
    cbn [PageTsx.loadFailed tasks isClient toast console_error localStorage
         consoleErrors toasts initialState].
    repeat (split; [reflexivity|]).
    intros Hw. unfold PageTsxApp.mount. rewrite L2.
    eexists _, _. split; [reflexivity|]. split; [reflexivity|].
    unfold PageTsx.saveEffect, setItem.
    cbn [PageTsx.rendered PageTsx.loadFailed isClient tasks toast console_error
         localStorage initialState PageTsx.filteredTasks snd].
    rewrite Hw. reflexivity.
Qed.

(** A store whose text is not JSON. *)
Lemma load_failure_witness :
  exists s2 w2,
    Part002App.mount Examples.utc (Examples.steady Examples.newYear)
                     Examples.varying (Examples.storage Malformed true)
    = Some (s2, w2)
    /\ tasks s2 = []
    /\ slot (localStorage w2) = Doc (JArr []).
Proof.
  destruct (load_failure Examples.utc (Examples.steady Examples.newYear)
              Examples.varying (Examples.storage Malformed true))
    as [(s1 & w1 & _ & _ & _ & _ & _ & _ & _ & H) _].
  - right. left. repeat split. discriminate.
  - apply H. reflexivity.
Defined.

Lemma Forall_map_seq {A} (P : A -> Prop) (f : nat -> A) n : forall a,
  (forall i, (i < a + n)%nat -> P (f i)) -> Forall P (map f (seq a n)).
Proof.
  induction n as [|n IH]; intros a H; cbn [seq map]; constructor.
  - apply H. lia.
  - apply IH. intros i Hi. apply H. lia.
Qed.

(** X19.  The samples are seeded once.  After a first run whose sample
    dates are valid dates, a later mount finds the samples of the first
    run in the store and loads exactly them, whatever the clock and the
    draws of the later mount are: nothing is seeded again.  In both
    revisions. *)
Theorem samples_are_seeded_once (rt : Runtime) (clock : nat -> Z) (random : nat -> Draw)
        (s : State) (w : World) :
  slot (localStorage w) = Absent ->
  readable (localStorage w) = true ->
  writable (localStorage w) = true ->
  (forall i, (i < 35)%nat ->
             JSDate.valid_time (clock i - Z.of_nat i * 24 * 60 * 60 * 1000)) ->
  (exists w1,
      Part002.loadEffect rt clock random s w
      = Some (Part002.loaded (Part002.dummyTasks rt clock random) s, w1)
      /\ forall clock' random' s',
           Part002.loadEffect rt clock' random' s' w1
           = Some (Part002.loaded (Part002.dummyTasks rt clock random) s', w1))
  /\
  (exists w1,
      PageTsx.loadEffect rt clock random s w
      = Some (PageTsx.loaded (PageTsx.dummyTasks rt clock random) s, w1)
      /\ forall clock' random' s',
           PageTsx.loadEffect rt clock' random' s' w1
           = Some (PageTsx.loaded (PageTsx.dummyTasks rt clock random) s', w1)).
Proof.
  intros Hs Hr Hw Hv.
  assert (V1 : Forall valid_task (Part002.dummyTasks rt clock random)).
  { apply Forall_map_seq. intros i Hi. apply Hv. lia. }
  assert (V2 : Forall valid_task (PageTsx.dummyTasks rt clock random)).
  { apply Forall_map_seq. intros i Hi. apply Hv. lia. }
  split.
  - eexists. split.
    + unfold Part002.loadEffect, getItem, setItem. rewrite Hr, Hs, Hw. reflexivity.
    + intros clock' random' s'.
      unfold Part002.loadEffect, getItem.
      cbn [with_storage localStorage readable slot]. rewrite ?Hr. cbv iota.
      now rewrite (RoundTrip.parse_stringify _ V1).
  - eexists. split.
    + unfold PageTsx.loadEffect, getItem, setItem. rewrite Hr, Hs, Hw. reflexivity.
    + intros clock' random' s'.
      unfold PageTsx.loadEffect, getItem.
      cbn [with_storage localStorage readable slot]. rewrite ?Hr. cbv iota.
      now rewrite (RoundTrip.parse_stringify _ V2).
Qed.

(** A first run on the new year's day of 2024. *)
Lemma samples_are_seeded_once_witness :
  exists w1,
    Part002.loadEffect Examples.utc (Examples.steady Examples.newYear)
                       Examples.varying initialState (Examples.storage Absent true)
    = Some (Part002.loaded (Part002.dummyTasks Examples.utc
                              (Examples.steady Examples.newYear) Examples.varying)
                           initialState, w1)
    /\ forall clock' random' s',
         Part002.loadEffect Examples.utc clock' random' s' w1
         = Some (Part002.loaded (Part002.dummyTasks Examples.utc
                                   (Examples.steady Examples.newYear) Examples.varying)
                                s', w1).
Proof.
  apply (samples_are_seeded_once Examples.utc (Examples.steady Examples.newYear)
           Examples.varying initialState (Examples.storage Absent true));
    try reflexivity.
  intros i Hi. unfold Examples.steady, Examples.newYear, JSDate.valid_time,
                      JSDate.maxTime. lia.
Defined.

End Loading.

(* ================================================================== *)
(** * The theme toggle                                                  *)
(* ================================================================== *)

Module Theme.

Import ThemeToggle.

Lemma toggle_ok (h : Host) (d : bool) :
  canWrite h = true -> darkClass h = d ->
  let h1 := fst (toggleTheme h d) in
  let d1 := snd (toggleTheme h d) in
  d1 = negb d /\ darkClass h1 = d1
  /\ storedTheme h1 = Some (if d1 then "dark" else "light")
  /\ canWrite h1 = true /\ canRead h1 = canRead h /\ prefersDark h1 = prefersDark h.
Proof.
  intros Hw Hd. unfold toggleTheme. rewrite Hw.
  destruct d; cbn; repeat split; exact Hw.
Qed.

(** X20.  The theme that is chosen is the theme after a reload.  With a
    store that accepts writes, a click flips the mode, the class [dark]
    of the document and the stored theme together; and the effect of a
    later mount restores the mode that the click has chosen, whatever the
    system prefers by then. *)
Theorem theme_survives_reload (h : Host) (isDarkMode prefers : bool) :
  canRead h = true -> canWrite h = true ->
  let h1 := fst (toggleTheme h isDarkMode) in
  let d1 := snd (toggleTheme h isDarkMode) in
  d1 = negb isDarkMode
  /\ darkClass h1 = d1
  /\ storedTheme h1 = Some (if d1 then "dark" else "light")
  /\ exists h2, mountEffect (reloaded prefers h1) = Some (h2, d1)
                /\ darkClass h2 = d1.
Proof.
  intros Hr Hw h1 d1. subst h1 d1. unfold toggleTheme. rewrite Hw.
  destruct isDarkMode; cbn [fst snd negb with_theme with_class darkClass storedTheme];
    (split; [reflexivity|]); (split; [reflexivity|]); (split; [reflexivity|]);
    unfold mountEffect, reloaded, startsDark;
    cbn [canRead storedTheme prefersDark with_class with_theme]; rewrite Hr;
    eexists; split; reflexivity.
Qed.

(** Dark is chosen on a host that prefers light. *)
Lemma theme_survives_reload_witness :
  exists h2,
    mountEffect (reloaded false (fst (toggleTheme Examples2.lightHost false)))
    = Some (h2, true)
    /\ darkClass h2 = true.
Proof.
  apply (theme_survives_reload Examples2.lightHost false false eq_refl eq_refl).
Defined.

Lemma clicks_ok n : forall h d,
  canWrite h = true -> darkClass h = d ->
  let h1 := fst (clicks n h d) in
  let d1 := snd (clicks n h d) in
  darkClass h1 = d1
  /\ d1 = (if Nat.even n then d else negb d)
  /\ (0 < n -> storedTheme h1 = Some (if d1 then "dark" else "light"))%nat.
Proof.
  induction n as [|n IH]; intros h d Hw Hd.
  - cbn. repeat split; [exact Hd|lia].
  - cbn [clicks].
    destruct (toggle_ok h d Hw Hd) as (E1 & E2 & E3 & E4 & _).
    destruct (toggleTheme h d) as [h1 d1]. cbn [fst snd] in *.
    destruct (IH h1 d1 E4 E2) as (I1 & I2 & I3).
    split; [exact I1|]. split.
    + rewrite I2, E1. rewrite Nat.even_succ, <- Nat.negb_even.
      destruct (Nat.even n), d; reflexivity.
    + intros _. destruct n as [|n']; [cbn in *; exact E3|apply I3; lia].
Qed.

(** X21.  The button and the page agree.  After the effect of the mount
    the mode of the button is the class of the document, and it is dark
    exactly when the stored theme is ["dark"], or nothing is stored and
    the system prefers dark.  With a store that accepts writes, every
    number of clicks keeps the mode and the class equal: an even number
    of clicks brings back the mode after the mount, an odd number its
    opposite, and after the first click the stored theme names the
    mode. *)
Theorem button_and_page_agree (h : Host) (n : nat) :
  canRead h = true -> canWrite h = true ->
  exists h0 d0,
    mountEffect h = Some (h0, d0)
    /\ darkClass h0 = d0
    /\ (d0 = true <-> storedTheme h = Some "dark"
                      \/ ((storedTheme h = None \/ storedTheme h = Some "")
                          /\ prefersDark h = true))
    /\ (let h1 := fst (clicks n h0 d0) in
        let d1 := snd (clicks n h0 d0) in
        darkClass h1 = d1
        /\ d1 = (if Nat.even n then d0 else negb d0)
        /\ (0 < n -> storedTheme h1 = Some (if d1 then "dark" else "light"))%nat).
Proof.
  intros Hr Hw. unfold mountEffect. rewrite Hr.
  eexists _, _. split; [reflexivity|]. split; [reflexivity|]. split.
  - unfold startsDark. destruct (storedTheme h) as [t|].
    + rewrite orb_true_iff, andb_true_iff, negb_true_iff, String.eqb_eq. split.
      * intros [->|[T P]]; [now left|]. right. split; [|exact P].
        right. destruct t; [reflexivity|discriminate].
      * intros [[= ->]|[[E|[= ->]] P]]; [now left|discriminate|].
        right. split; [reflexivity|exact P].
    + split; [intros P; right; split; [now left|exact P]|].
      intros [E|[_ P]]; [discriminate|exact P].
  - apply clicks_ok; [exact Hw|reflexivity].
Qed.

(** Three clicks on a light host. *)
Lemma button_and_page_agree_witness :
  exists h0 d0,
    mountEffect Examples2.lightHost = Some (h0, d0)
    /\ darkClass (fst (clicks 3 h0 d0)) = snd (clicks 3 h0 d0).
Proof.
  destruct (button_and_page_agree Examples2.lightHost 3 eq_refl eq_refl)
    as (h0 & d0 & M & _ & _ & C & _).
  exists h0, d0. split; [exact M|exact C].
Defined.

(** X22.  A store that refuses the write.  The handler changes the class
    of the document before it writes, and [setItem] throws before
    [setIsDarkMode] is called: after the click the page has changed and
    the button has not, so they disagree, nothing is stored, and further
    clicks change nothing more. *)
Theorem toggle_with_failing_store (h : Host) (isDarkMode : bool) (n : nat) :
  canWrite h = false -> darkClass h = isDarkMode ->
  let h1 := fst (toggleTheme h isDarkMode) in
  let d1 := snd (toggleTheme h isDarkMode) in
  d1 = isDarkMode
  /\ darkClass h1 = negb isDarkMode
  /\ storedTheme h1 = storedTheme h
  /\ clicks n h1 d1 = (h1, d1).
Proof.
  intros Hw Hd h1 d1. subst h1 d1. unfold toggleTheme. rewrite Hw.
  destruct isDarkMode; cbn [fst snd negb with_class darkClass storedTheme];
    (split; [reflexivity|]); (split; [reflexivity|]); (split; [reflexivity|]);
    induction n as [|n IH]; cbn [clicks]; try reflexivity;
    unfold toggleTheme; cbn [canWrite with_class]; rewrite Hw; exact IH.
Qed.

(** A light host whose store is full. *)
Lemma toggle_with_failing_store_witness :
  darkClass (fst (toggleTheme Examples2.fullHost false)) = true
  /\ snd (toggleTheme Examples2.fullHost false) = false.
Proof.
  destruct (toggle_with_failing_store Examples2.fullHost false 1 eq_refl eq_refl)
    as (D & C & _).
  split; [exact C|exact D].
Defined.

End Theme.
